(** * Run orchestration core of the content pipeline

    A shallow embedding of [backend/app/schemas/pipeline.py],
    [backend/app/services/run_state.py] and
    [backend/app/services/pipeline_runner.py], with the properties of the
    run registry, of the orchestrator and of payload sanitization. *)

From Stdlib Require Import PrimFloat Ascii Sorted.
From stdpp Require Import gmap strings list pretty.

Set Default Proof Using "Type".
Set Warnings "-register-all".

(** ** Enumerations of [schemas/pipeline.py] *)

Module PipelineStage.
Inductive t := ingest | narrative | voiceover | editing | packaging | analytics | completed.

Definition value (s : t) : string :=
  match s with
  | ingest => "ingest" | narrative => "narrative" | voiceover => "voiceover"
  | editing => "editing" | packaging => "packaging" | analytics => "analytics"
  | completed => "completed"
  end.

Definition index (s : t) : nat :=
  match s with
  | ingest => 0 | narrative => 1 | voiceover => 2 | editing => 3
  | packaging => 4 | analytics => 5 | completed => 6
  end.

Definition of_index (n : nat) : option t :=
  match n with
  | 0 => Some ingest | 1 => Some narrative | 2 => Some voiceover | 3 => Some editing
  | 4 => Some packaging | 5 => Some analytics | 6 => Some completed
  | _ => None
  end.

#[global] Instance eq_dec : EqDecision t.
Proof. solve_decision. Defined.

#[global] Instance countable : Countable t :=
  inj_countable index of_index
    (fun s => match s with
              | ingest | narrative | voiceover | editing
              | packaging | analytics | completed => eq_refl
              end).
End PipelineStage.

Module PipelinePlatform.
Inductive t := instagram | tiktok.

Definition value (p : t) : string :=
  match p with instagram => "instagram" | tiktok => "tiktok" end.
End PipelinePlatform.

Module PipelineRunStatus.
Inductive t := queued | running | completed | error.

Definition value (s : t) : string :=
  match s with
  | queued => "queued" | running => "running"
  | completed => "completed" | error => "error"
  end.

#[global] Instance eq_dec : EqDecision t.
Proof. solve_decision. Defined.

(** Position in the lifecycle [queued -> running -> {completed | error}]. *)
Definition rank (s : t) : nat :=
  match s with queued => 0 | running => 1 | completed => 2 | error => 2 end.

Definition terminal (s : t) : bool :=
  match s with completed | error => true | _ => false end.
End PipelineRunStatus.

(** [PIPELINE_STAGE_ORDER] of [run_state.py]. *)
Definition PIPELINE_STAGE_ORDER : list PipelineStage.t :=
  [PipelineStage.ingest; PipelineStage.narrative; PipelineStage.voiceover;
   PipelineStage.editing; PipelineStage.packaging; PipelineStage.analytics;
   PipelineStage.completed].

(** ** Python values

    Stage results and payloads are [Any] in the source.  The values that
    flow through the orchestrator are the JSON-like ones and dataclass
    instances ([NarrativePayload], [AnalyticsPayload]).  A dict is kept as
    an association list in insertion order; its keys are strings
    ([dict[str, Any]]). *)

Inductive PyValue :=
| VNone
| VBool (b : bool)
| VInt (n : Z)
| VFloat (x : float)
| VStr (s : string)
| VList (items : list PyValue)
| VTuple (items : list PyValue)
| VDict (entries : list (string * PyValue))
| VData (cls : string) (fields : list (string * PyValue)).

Abbreviation PyDict := (list (string * PyValue)).

(** Exceptions: class name, [str(exc)], and the [__cause__] set by
    [raise ... from ...]. *)
Inductive PyExc := Exc (cls : string) (msg : string) (cause : option PyExc).

Definition exc_str (e : PyExc) : string := let 'Exc _ msg _ := e in msg.

(** A computation that returns or raises. *)
Definition Result (A : Type) : Type := PyExc + A.

Definition ok {A} (x : A) : Result A := inr x.
Definition throw {A} (cls msg : string) : Result A := inl (Exc cls msg None).

Definition rbind {A B} (r : Result A) (k : A -> Result B) : Result B :=
  match r with inl e => inl e | inr x => k x end.

(** [d.get(key)]: first binding of the key, [None] when absent. *)
Fixpoint dict_lookup (key : string) (d : PyDict) : option PyValue :=
  match d with
  | [] => None
  | (k, v) :: rest => if decide (k = key) then Some v else dict_lookup key rest
  end.

Definition dict_get (d : PyDict) (key : string) (dflt : PyValue) : PyValue :=
  default dflt (dict_lookup key d).

Definition dict_keys (d : PyDict) : list string := d.*1.

(** [d[key] = v]: an existing key keeps its position, a new one goes last. *)
Fixpoint dict_set (key : string) (v : PyValue) (d : PyDict) : PyDict :=
  match d with
  | [] => [(key, v)]
  | (k, x) :: rest =>
      if decide (k = key) then (k, v) :: rest else (k, x) :: dict_set key v rest
  end.

(** Truth value of a Python object ([if x:], [x or y]). *)
Definition py_truthy (v : PyValue) : bool :=
  match v with
  | VNone => false
  | VBool b => b
  | VInt n => negb (n =? 0)%Z
  | VFloat x => negb (PrimFloat.eqb x PrimFloat.zero)
  | VStr s => negb (String.eqb s "")
  | VList l | VTuple l => negb (Nat.eqb (length l) 0)
  | VDict d => negb (Nat.eqb (length d) 0)
  | VData _ _ => true
  end.

(** Iteration ([for item in value]): a dict yields its keys, a string its
    characters; the other values are not iterable. *)
Definition py_iter (v : PyValue) : Result (list PyValue) :=
  match v with
  | VList l | VTuple l => ok l
  | VDict d => ok (VStr <$> dict_keys d)
  | VStr s => ok ((fun c => VStr (String c "")) <$> String.list_ascii_of_string s)
  | _ => throw "TypeError" "object is not iterable"
  end.

(** [len(value)]. *)
Definition py_len (v : PyValue) : Result nat :=
  match v with
  | VList l | VTuple l => ok (length l)
  | VDict d => ok (length d)
  | VStr s => ok (String.length s)
  | _ => throw "TypeError" "object has no len()"
  end.

(** [value.get(key, default)], defined on dicts only. *)
Definition py_get (v : PyValue) (key : string) (dflt : PyValue) : Result PyValue :=
  match v with
  | VDict d => ok (dict_get d key dflt)
  | _ => throw "AttributeError" "object has no attribute 'get'"
  end.

(** Attribute access on a dataclass instance. *)
Definition py_getattr (v : PyValue) (name : string) : Result PyValue :=
  match v with
  | VData _ fields =>
      match dict_lookup name fields with
      | Some x => ok x
      | None => throw "AttributeError" name
      end
  | _ => throw "AttributeError" name
  end.

(** [dataclasses.asdict]: nested dataclass instances become dicts, lists,
    tuples and dicts are rebuilt, other values are copied. *)
Fixpoint asdict_inner (v : PyValue) : PyValue :=
  match v with
  | VData _ fields => VDict (map (fun kv => let '(k, x) := kv in (k, asdict_inner x)) fields)
  | VList l => VList (map asdict_inner l)
  | VTuple l => VTuple (map asdict_inner l)
  | VDict d => VDict (map (fun kv => let '(k, x) := kv in (k, asdict_inner x)) d)
  | _ => v
  end.

Definition asdict (fields : PyDict) : PyDict :=
  map (fun kv => let '(k, x) := kv in (k, asdict_inner x)) fields.

(** The dict on which [_sanitize_payload] runs its loop: [asdict(payload)]
    for a dataclass instance, the payload itself for a dict; [None] for a
    payload that is neither. *)
Definition payload_items (payload : PyValue) : option PyDict :=
  match payload with
  | VData _ fields => Some (asdict fields)
  | VDict d => Some d
  | _ => None
  end.

(** ** Paths ([pathlib.Path] on a POSIX system)

    A path is its root (["/"], ["//"] or empty) and its components; empty
    components and ["."] are dropped when a string is parsed. *)

Fixpoint split_slash (s : string) : list string :=
  match s with
  | EmptyString => [""]
  | String c rest =>
      let parts := split_slash rest in
      if Ascii.eqb c "/"%char then "" :: parts
      else match parts with
           | p :: ps => String c p :: ps
           | [] => [String c ""]
           end
  end.

Record PurePath := { root : string; tail : list string }.

Definition path_root (s : string) : string :=
  match s with
  | String "/"%char (String "/"%char (String "/"%char _)) => "/"
  | String "/"%char (String "/"%char _) => "//"
  | String "/"%char _ => "/"
  | _ => ""
  end.

Definition is_component (x : string) : bool :=
  negb (String.eqb x "") && negb (String.eqb x ".").

Definition Path (s : string) : PurePath :=
  {| root := path_root s; tail := filter (fun x => is_component x = true) (split_slash s) |}.

(** [xs] without its prefix [pre], when it has that prefix. *)
Fixpoint strip_prefix (pre xs : list string) : option (list string) :=
  match pre, xs with
  | [], _ => Some xs
  | p :: pre', x :: xs' => if decide (p = x) then strip_prefix pre' xs' else None
  | _ :: _, [] => None
  end.

(** [self.relative_to(other)]; [None] stands for the [ValueError]. *)
Definition relative_to (self other : PurePath) : option PurePath :=
  if decide (root self = root other) then
    rel ← strip_prefix (tail other) (tail self); Some {| root := ""; tail := rel |}
  else None.

Definition as_posix (p : PurePath) : string :=
  match root p, tail p with
  | "", [] => "."
  | r, parts => r +:+ String.concat "/" parts
  end.

(** ** Payload sanitization ([pipeline_runner.py])

    [settings.outputs_dir] and the builtin [str] on values that are neither
    strings, [None], booleans nor integers are parameters of the model. *)

Section Sanitize.
Variable outputs_dir : string.
Variable py_str_other : PyValue -> string.

(** [str(value)]. *)
Definition py_str (v : PyValue) : string :=
  match v with
  | VStr s => s
  | VNone => "None"
  | VBool true => "True"
  | VBool false => "False"
  | VInt n => pretty n
  | _ => py_str_other v
  end.

(** [PipelineRunner._public_asset_path]; the argument is [str | None]. *)
Definition _public_asset_path (path : option string) : option string :=
  match path with
  | None => None
  | Some p =>
      if String.eqb p "" then None
      else match relative_to (Path p) (Path outputs_dir) with
           | None => None
           | Some relative => Some ("outputs/" +:+ as_posix relative)
           end
  end.

(** [PipelineRunner._rewrite_asset_path]: [public_path or value]. *)
Definition _rewrite_asset_path (value : string) : string :=
  match _public_asset_path (Some value) with
  | Some public_path => if String.eqb public_path "" then value else public_path
  | None => value
  end.

(** One entry of the [assets] comprehension; [None] for an item that is
    not a dict, which the comprehension skips. *)
Definition sanitize_asset (item : PyValue) : option PyValue :=
  match item with
  | VDict d =>
      Some (VDict [("id", dict_get d "id" VNone);
                   ("local_path", dict_get d "local_path" VNone);
                   ("license", dict_get d "license" VNone)])
  | _ => None
  end.

(** The body of the loop over [payload.items()]: the value stored under
    [key] in [sanitized]. *)
Definition sanitize_value (key : string) (value : PyValue) : Result PyValue :=
  if decide (key = "assets") then
    rbind (py_iter value) (fun items => ok (VList (omap sanitize_asset items)))
  else
    match value with
    | VStr s => ok (VStr (_rewrite_asset_path s))
    | VInt _ | VFloat _ | VBool _ => ok value
    | _ => ok (VStr (py_str value))
    end.

(** One turn of the loop: [sanitized[key] = ...]. *)
Definition sanitize_step (acc : Result PyDict) (kv : string * PyValue) : Result PyDict :=
  let '(key, value) := kv in
  rbind acc (fun sanitized =>
  rbind (sanitize_value key value) (fun v =>
  ok (dict_set key v sanitized))).

Definition sanitize_items (payload : PyDict) : Result PyDict :=
  foldl sanitize_step (ok []) payload.

(** [PipelineRunner._sanitize_payload]. *)
Fixpoint _sanitize_payload (payload : PyValue) : Result PyValue :=
  match payload with
  | VData _ fields => rbind (sanitize_items (asdict fields)) (fun d => ok (VDict d))
  | VDict d => rbind (sanitize_items d) (fun d' => ok (VDict d'))
  | VList items | VTuple items =>
      rbind ((fix each (l : list PyValue) : Result (list PyValue) :=
                match l with
                | [] => ok []
                | item :: rest =>
                    rbind (_sanitize_payload item) (fun x =>
                    rbind (each rest) (fun xs => ok (x :: xs)))
                end) items)
            (fun xs => ok (VList xs))
  | _ => ok payload
  end.

(** [isinstance(asset, dict) and asset.get("placeholder")]. *)
Definition is_placeholder (asset : PyValue) : bool :=
  match asset with
  | VDict d => py_truthy (dict_get d "placeholder" VNone)
  | _ => false
  end.

(** [PipelineRunner._format_ingest_detail]. *)
Definition _format_ingest_detail (payload : PyValue) : Result string :=
  let assets := match payload with VDict d => dict_get d "assets" (VList []) | _ => VList [] end in
  rbind (py_len assets) (fun count =>
  rbind (py_iter assets) (fun items =>
  let placeholder_count :=
    length (filter (fun asset => is_placeholder asset = true) items) in
  if Nat.eqb placeholder_count 0
  then ok ("Prepared " +:+ pretty count +:+ " curated clips.")
  else ok ("Prepared " +:+ pretty count +:+ " clips (" +:+ pretty placeholder_count
           +:+ " placeholders generated)."))).

End Sanitize.

(** ** Models of [schemas/pipeline.py] *)

Module PipelineStageSnapshot.
Record t := mk {
  stage : PipelineStage.t;
  status : string;
  detail : option string;
  payload : option PyDict }.
End PipelineStageSnapshot.

Module PipelineRunRequest.
Record t := mk {
  run_name : string;
  platforms : list PipelinePlatform.t;
  stock_keywords : list string;
  notes : option string }.
End PipelineRunRequest.

Module PipelineRunResponse.
Record t := mk {
  run_name : string;
  stages : list PipelineStageSnapshot.t;
  outputs : PyDict }.
End PipelineRunResponse.

Module PipelineRunStatusResponse.
Record t := mk {
  run_id : string;
  run_name : string;
  status : PipelineRunStatus.t;
  stages : list PipelineStageSnapshot.t;
  outputs : PyDict }.
End PipelineRunStatusResponse.

(** Validation of the [payload: dict[str, Any] | None] field when a
    snapshot is built from an [Any]. *)
Definition validate_payload (v : PyValue) : Result (option PyDict) :=
  match v with
  | VNone => ok None
  | VDict d => ok (Some d)
  | _ => throw "ValidationError" "payload: Input should be a valid dictionary"
  end.

(** ** Events and run state ([run_state.py])

    An event is the dict handed to [_serialize_event]; the queue holds the
    events in the order of the [put] calls, [None] being the sentinel that
    closes the channel.  [json.dumps] is total on the values modelled here,
    so an event stands for its serialized string. *)

Inductive Event :=
| EvInit (run_id run_name : string) (stages : list PipelineStageSnapshot.t)
| EvRun (run_id : string) (status : string)
| EvStage (run_id : string) (snapshot : PipelineStageSnapshot.t)
| EvComplete (run_id : string) (response : PipelineRunResponse.t)
| EvError (run_id : string) (message : string).

Module RunState.
Record t := mk {
  run_id : string;
  run_name : string;
  request : PipelineRunRequest.t;
  status : PipelineRunStatus.t;
  stages : gmap PipelineStage.t PipelineStageSnapshot.t;
  outputs : PyDict;
  queue : list (option Event) }.

Definition set_status (s : PipelineRunStatus.t) (st : t) : t :=
  mk (run_id st) (run_name st) (request st) s (stages st) (outputs st) (queue st).

Definition set_outputs (o : PyDict) (st : t) : t :=
  mk (run_id st) (run_name st) (request st) (status st) (stages st) o (queue st).

(** [state.stages[stage] = snapshot]. *)
Definition set_stage (stage : PipelineStage.t) (snapshot : PipelineStageSnapshot.t) (st : t) : t :=
  mk (run_id st) (run_name st) (request st) (status st)
     (<[stage := snapshot]> (stages st)) (outputs st) (queue st).

(** [state.queue.put(item)] on the unbounded queue. *)
Definition put (item : option Event) (st : t) : t :=
  mk (run_id st) (run_name st) (request st) (status st) (stages st) (outputs st)
     (queue st ++ [item]).

(** [RunState.stage_snapshots]. *)
Definition stage_snapshots (st : t) : list PipelineStageSnapshot.t :=
  omap (fun stage => stages st !! stage) PIPELINE_STAGE_ORDER.
End RunState.

(** ** The world of a run

    [_runs] is the dict of the [RunStateManager] singleton.  [history]
    lists the successive values of [_runs] after each registry operation
    that changed a run: these are the states a status query can see
    between the orchestrator's suspension points.  [executed] logs every
    stage executor handed to [asyncio.to_thread], with its outcome. *)

Record World := mkWorld {
  _runs : gmap string RunState.t;
  history : list (gmap string RunState.t);
  executed : list (PipelineStage.t * Result PyValue) }.

Definition fresh_world (runs : gmap string RunState.t) : World :=
  mkWorld runs [] [].

(** Coroutines: state passing over the world, with exceptions. *)
Definition M (A : Type) : Type := World -> World * Result A.

Definition ret {A} (x : A) : M A := fun w => (w, inr x).
Definition raise {A} (e : PyExc) : M A := fun w => (w, inl e).
Definition lift {A} (r : Result A) : M A := fun w => (w, r).

Definition bind {A B} (c : M A) (k : A -> M B) : M B :=
  fun w => match c w with
           | (w', inr x) => k x w'
           | (w', inl e) => (w', inl e)
           end.

(** [try: body except Exception as exc: handler(exc)]. *)
Definition try_except {A} (body : M A) (handler : PyExc -> M A) : M A :=
  fun w => match body w with
           | (w', inr x) => (w', inr x)
           | (w', inl e) => handler e w'
           end.

Declare Scope coro_scope.
Delimit Scope coro_scope with coro.
Notation "x <- c1 ;; c2" := (bind c1 (fun x => c2))
  (at level 100, c1 at next level, right associativity) : coro_scope.
Notation "c1 ;; c2" := (bind c1 (fun _ => c2))
  (at level 100, right associativity) : coro_scope.
Local Open Scope coro_scope.

(** The in-place mutation of the [RunState] object held in [_runs]. *)
Definition store (run_id : string) (state : RunState.t) : M unit :=
  fun w => let runs := <[run_id := state]> (_runs w) in
           (mkWorld runs (history w ++ [runs]) (executed w), inr tt).

(** [await asyncio.to_thread(executor)]. *)
Definition to_thread (stage : PipelineStage.t) (executor : Result PyValue) : M PyValue :=
  fun w => (mkWorld (_runs w) (history w) (executed w ++ [(stage, executor)]), executor).

Module RunStateManager.

Definition _get_run (run_id : string) : M (option RunState.t) :=
  fun w => (w, inr (_runs w !! run_id)).

(** The dict comprehension of [create_run]: every stage [queued]. *)
Definition initial_stages : gmap PipelineStage.t PipelineStageSnapshot.t :=
  list_to_map ((fun stage =>
    (stage, PipelineStageSnapshot.mk stage "queued" (Some "Awaiting execution") None))
    <$> PIPELINE_STAGE_ORDER).

(** [create_run]; [run_id] is the token drawn from [uuid.uuid4().hex], 32
    hexadecimal digits, so never the empty string. *)
Definition create_run (run_id run_name : string) (request : PipelineRunRequest.t)
  : M RunState.t :=
  let stages := initial_stages in
  let state :=
    RunState.mk run_id run_name request PipelineRunStatus.queued stages [] [] in
  let state :=
    RunState.put (Some (EvInit run_id run_name (RunState.stage_snapshots state))) state in
  store run_id state ;;
  ret state.

Definition mark_run_started (run_id : string) : M unit :=
  state <- _get_run run_id ;;
  match state with
  | None => ret tt
  | Some state =>
      let state := RunState.set_status PipelineRunStatus.running state in
      store run_id
        (RunState.put
           (Some (EvRun run_id (PipelineRunStatus.value (RunState.status state)))) state)
  end.

Definition update_stage (run_id : string) (stage : PipelineStage.t) (status : string)
    (detail : option string) (payload : option PyDict) : M unit :=
  state <- _get_run run_id ;;
  match state with
  | None => ret tt
  | Some state =>
      let snapshot := PipelineStageSnapshot.mk stage status detail payload in
      let state := RunState.set_stage stage snapshot state in
      store run_id (RunState.put (Some (EvStage run_id snapshot)) state)
  end.

Definition mark_run_completed (run_id : string) (response : PipelineRunResponse.t) : M unit :=
  state <- _get_run run_id ;;
  match state with
  | None => ret tt
  | Some state =>
      let state := RunState.set_status PipelineRunStatus.completed state in
      let state := RunState.set_outputs (PipelineRunResponse.outputs response) state in
      let state :=
        RunState.put
          (Some (EvRun run_id (PipelineRunStatus.value (RunState.status state)))) state in
      let state := RunState.put (Some (EvComplete run_id response)) state in
      store run_id (RunState.put None state)
  end.

Definition mark_run_failed (run_id : string) (message : string) : M unit :=
  state <- _get_run run_id ;;
  match state with
  | None => ret tt
  | Some state =>
      let state := RunState.set_status PipelineRunStatus.error state in
      let state :=
        RunState.put
          (Some (EvRun run_id (PipelineRunStatus.value (RunState.status state)))) state in
      let state := RunState.put (Some (EvError run_id message)) state in
      store run_id (RunState.put None state)
  end.

Definition get_status (run_id : string) : M (option PipelineRunStatusResponse.t) :=
  state <- _get_run run_id ;;
  match state with
  | None => ret None
  | Some state =>
      ret (Some (PipelineRunStatusResponse.mk run_id (RunState.run_name state)
                   (RunState.status state) (RunState.stage_snapshots state)
                   (RunState.outputs state)))
  end.

(** [get_queue]. *)
Definition get_queue (run_id : string) : M (option (list (option Event))) :=
  fun w => (w, inr (RunState.queue <$> _runs w !! run_id)).

End RunStateManager.

(** ** The orchestrator ([pipeline_runner.py])

    The six services are external: each is a function from the arguments
    the orchestrator passes to an outcome (a result, or the exception it
    raised). *)

Notation "'unpack' a , b <- c1 ;; c2" := (bind c1 (fun '(a, b) => c2))
  (at level 100, a name, b name, c1 at next level, right associativity) : coro_scope.

Record Services := {
  prepare_assets : list string -> Result PyValue;
  generate : string -> list string -> list string -> Result PyValue;
  synthesize : PyValue -> string -> Result PyValue;
  produce_videos : PyValue -> PyValue -> string -> Result PyValue;
  package : string -> PyValue -> PyValue -> PyValue -> Result PyValue;
  evaluate : PyValue -> PyValue -> Result PyValue }.

(** [value[key]] with a string key. *)
Definition py_subscript (v : PyValue) (key : string) : Result PyValue :=
  match v with
  | VDict d =>
      match dict_lookup key d with
      | Some x => ok x
      | None => throw "KeyError" key
      end
  | _ => throw "TypeError" "object is not subscriptable"
  end.

(** A dict built from attributes of [v]: each [(key, attribute)] pair of
    [spec] gives the entry [key: v.attribute]. *)
Fixpoint dict_of_attrs (v : PyValue) (spec : list (string * string)) : Result PyDict :=
  match spec with
  | [] => ok []
  | (key, attr) :: rest =>
      rbind (py_getattr v attr) (fun x =>
      rbind (dict_of_attrs v rest) (fun d => ok ((key, x) :: d)))
  end.

(** The [as_dict] methods of [NarrativePayload] and [AnalyticsPayload]. *)
Definition as_dict (v : PyValue) : Result PyValue :=
  match v with
  | VData cls _ =>
      if decide (cls = "NarrativePayload") then
        rbind (dict_of_attrs v
                 [("script", "master_script");
                  ("instagram_caption", "instagram_caption");
                  ("instagram_hashtags", "instagram_hashtags");
                  ("tiktok_caption", "tiktok_caption");
                  ("tiktok_hashtags", "tiktok_hashtags");
                  ("cta", "cta")])
              (fun d => ok (VDict d))
      else if decide (cls = "AnalyticsPayload") then
        rbind (dict_of_attrs v
                 [("expected_ctr", "expected_ctr");
                  ("retention_score", "retention_score");
                  ("narrative_complexity", "narrative_complexity")])
              (fun d => ok (VDict d))
      else throw "AttributeError" "as_dict"
  | _ => throw "AttributeError" "as_dict"
  end.

Section PipelineRunner.
Variable outputs_dir : string.
Variable py_str_other : PyValue -> string.
(** [dt.datetime.utcnow().isoformat()] at the end of the run. *)
Variable utcnow_isoformat : string.
Variable services : Services.

(** [_public_asset_path] at an argument of type [Any]: a false value gives
    [None], a string goes through the function above, [Path] rejects the
    rest. *)
Definition _public_asset_path_any (path : PyValue) : Result PyValue :=
  if negb (py_truthy path) then ok VNone
  else match path with
       | VStr p =>
           ok (match _public_asset_path outputs_dir (Some p) with
               | Some public => VStr public
               | None => VNone
               end)
       | _ => throw "TypeError" "expected str, bytes or os.PathLike object"
       end.

(** [if run_id: await ...]. *)
Definition if_run_id (run_id : option string) (k : string -> M unit) : M unit :=
  match run_id with
  | Some rid => if String.eqb rid "" then ret tt else k rid
  | None => ret tt
  end.

(** [PipelineRunner._run_stage].  [executor] is the outcome of calling the
    closure; the list [snapshots] is returned extended. *)
Definition _run_stage (stage : PipelineStage.t) (snapshots : list PipelineStageSnapshot.t)
    (executor : Result PyValue) (detail_builder : PyValue -> Result string)
    (run_id : option string) : M (PyValue * list PipelineStageSnapshot.t) :=
  if_run_id run_id (fun rid => RunStateManager.update_stage rid stage "running" None None) ;;
  try_except
    (result <- to_thread stage executor ;;
     detail <- lift (detail_builder result) ;;
     payload <- lift (rbind (_sanitize_payload outputs_dir py_str_other result) validate_payload) ;;
     let snapshot := PipelineStageSnapshot.mk stage "done" (Some detail) payload in
     let snapshots := snapshots ++ [snapshot] in
     if_run_id run_id (fun rid =>
       RunStateManager.update_stage rid stage "done" (Some detail)
         (PipelineStageSnapshot.payload snapshot)) ;;
     ret (result, snapshots))
    (fun exc =>
       if_run_id run_id (fun rid =>
         RunStateManager.update_stage rid stage "error" (Some (exc_str exc)) None) ;;
       raise (Exc "RuntimeError" ("Stage " +:+ PipelineStage.value stage +:+ " failed")
                  (Some exc))).

(** The dict of one platform in [outputs]. *)
Definition platform_outputs (video_payload narrative_payload : PyValue)
    (video_key caption_attr hashtags_attr : string) : Result PyValue :=
  rbind (py_get video_payload video_key VNone) (fun video =>
  rbind (_public_asset_path_any video) (fun video_path =>
  rbind (py_getattr narrative_payload caption_attr) (fun caption =>
  rbind (py_getattr narrative_payload hashtags_attr) (fun hashtags =>
  rbind (py_getattr narrative_payload "cta") (fun cta =>
  ok (VDict [("video_path", video_path); ("caption", caption);
             ("hashtags", hashtags); ("cta", cta)])))))).

(** [PipelineRunner._execute]. *)
Definition _execute (request : PipelineRunRequest.t) (run_id : option string)
  : M PipelineRunResponse.t :=
  let run_name := PipelineRunRequest.run_name request in
  let stock_keywords := PipelineRunRequest.stock_keywords request in
  let snapshots := [] in
  unpack assets_payload, snapshots <-
    _run_stage PipelineStage.ingest snapshots
      (prepare_assets services stock_keywords)
      _format_ingest_detail run_id ;;
  unpack narrative_payload, snapshots <-
    _run_stage PipelineStage.narrative snapshots
      (generate services run_name stock_keywords
         (PipelinePlatform.value <$> PipelineRunRequest.platforms request))
      (fun _ => ok "Generated master script and dual-platform captions.") run_id ;;
  unpack voiceover_payload, snapshots <-
    _run_stage PipelineStage.voiceover snapshots
      (rbind (py_getattr narrative_payload "master_script") (fun script =>
       synthesize services script run_name))
      (fun payload =>
         rbind (py_get payload "status" (VStr "unknown")) (fun s =>
         ok ("Voiceover status: " +:+ py_str py_str_other s +:+ ".")))
      run_id ;;
  unpack video_payload, snapshots <-
    _run_stage PipelineStage.editing snapshots
      (rbind (py_subscript assets_payload "assets") (fun assets =>
       rbind (py_iter assets) (fun _ =>
       rbind (py_get voiceover_payload "voiceover_path" (VStr "")) (fun voiceover_path =>
       produce_videos services assets voiceover_path run_name))))
      (fun _ => ok "Rendered Instagram and TikTok masters.") run_id ;;
  unpack packaging_payload, snapshots <-
    _run_stage PipelineStage.packaging snapshots
      (rbind (as_dict narrative_payload) (fun narrative =>
       package services run_name narrative assets_payload video_payload))
      (fun _ => ok "Packaged deliverables into metadata bundle.") run_id ;;
  unpack analytics_payload, snapshots <-
    _run_stage PipelineStage.analytics snapshots
      (rbind (py_getattr narrative_payload "master_script") (fun script =>
       rbind (py_getattr narrative_payload "instagram_caption") (fun caption =>
       evaluate services script caption)))
      (fun _ => ok "Computed engagement heuristics.") run_id ;;
  let completion_snapshot :=
    PipelineStageSnapshot.mk PipelineStage.completed "done"
      (Some ("Run finished at " +:+ utcnow_isoformat +:+ "Z")) None in
  let snapshots := snapshots ++ [completion_snapshot] in
  if_run_id run_id (fun rid =>
    RunStateManager.update_stage rid PipelineStage.completed "done"
      (PipelineStageSnapshot.detail completion_snapshot) None) ;;
  instagram <- lift (platform_outputs video_payload narrative_payload
                       "instagram_video" "instagram_caption" "instagram_hashtags") ;;
  tiktok <- lift (platform_outputs video_payload narrative_payload
                    "tiktok_video" "tiktok_caption" "tiktok_hashtags") ;;
  analytics <- lift (as_dict analytics_payload) ;;
  let outputs :=
    [("instagram", instagram); ("tiktok", tiktok);
     ("metadata", packaging_payload); ("analytics", analytics)] in
  ret (PipelineRunResponse.mk run_name snapshots outputs).

(** [PipelineRunner.run]. *)
Definition run (request : PipelineRunRequest.t) : M PipelineRunResponse.t :=
  _execute request None.

(** [PipelineRunner.execute_with_tracking]. *)
Definition execute_with_tracking (run_id : string) (request : PipelineRunRequest.t) : M unit :=
  try_except
    (RunStateManager.mark_run_started run_id ;;
     response <- _execute request (Some run_id) ;;
     RunStateManager.mark_run_completed run_id response)
    (fun exc => RunStateManager.mark_run_failed run_id (exc_str exc)).

End PipelineRunner.

(** ** Traces of registry calls

    What the orchestrator does to one run is a sequence of registry calls
    and executor calls.  [effect] is the change a registry call makes to
    the [RunState] it addresses. *)

Inductive RegistryCall :=
| MarkRunStarted
| UpdateStage (stage : PipelineStage.t) (status : string) (detail : option string)
              (payload : option PyDict)
| MarkRunCompleted (response : PipelineRunResponse.t)
| MarkRunFailed (message : string).

Definition perform (run_id : string) (c : RegistryCall) : M unit :=
  match c with
  | MarkRunStarted => RunStateManager.mark_run_started run_id
  | UpdateStage stage status detail payload =>
      RunStateManager.update_stage run_id stage status detail payload
  | MarkRunCompleted response => RunStateManager.mark_run_completed run_id response
  | MarkRunFailed message => RunStateManager.mark_run_failed run_id message
  end.

Definition events (run_id : string) (c : RegistryCall) : list (option Event) :=
  match c with
  | MarkRunStarted => [Some (EvRun run_id "running")]
  | UpdateStage stage status detail payload =>
      [Some (EvStage run_id (PipelineStageSnapshot.mk stage status detail payload))]
  | MarkRunCompleted response =>
      [Some (EvRun run_id "completed"); Some (EvComplete run_id response); None]
  | MarkRunFailed message =>
      [Some (EvRun run_id "error"); Some (EvError run_id message); None]
  end.

Definition status_after (c : RegistryCall) (s : PipelineRunStatus.t) : PipelineRunStatus.t :=
  match c with
  | MarkRunStarted => PipelineRunStatus.running
  | UpdateStage _ _ _ _ => s
  | MarkRunCompleted _ => PipelineRunStatus.completed
  | MarkRunFailed _ => PipelineRunStatus.error
  end.

Definition outputs_after (c : RegistryCall) (o : PyDict) : PyDict :=
  match c with
  | MarkRunCompleted response => PipelineRunResponse.outputs response
  | _ => o
  end.

Definition stages_after (c : RegistryCall)
    (m : gmap PipelineStage.t PipelineStageSnapshot.t)
  : gmap PipelineStage.t PipelineStageSnapshot.t :=
  match c with
  | UpdateStage stage status detail payload =>
      <[stage := PipelineStageSnapshot.mk stage status detail payload]> m
  | _ => m
  end.

Definition effect (run_id : string) (c : RegistryCall) (st : RunState.t) : RunState.t :=
  RunState.mk (RunState.run_id st) (RunState.run_name st) (RunState.request st)
    (status_after c (RunState.status st)) (stages_after c (RunState.stages st))
    (outputs_after c (RunState.outputs st)) (RunState.queue st ++ events run_id c).

Inductive Step :=
| Reg (c : RegistryCall)
| Call (stage : PipelineStage.t) (outcome : Result PyValue).

Definition do_step (run_id : string) (w : World) (s : Step) : World :=
  match s with
  | Reg c =>
      match _runs w !! run_id with
      | Some st => (store run_id (effect run_id c st) w).1
      | None => w
      end
  | Call stage outcome => (to_thread stage outcome w).1
  end.

Definition do_steps (run_id : string) (w : World) (steps : list Step) : World :=
  foldl (do_step run_id) w steps.

Definition registry_calls (steps : list Step) : list RegistryCall :=
  omap (fun s => match s with Reg c => Some c | Call _ _ => None end) steps.

Definition executor_calls (steps : list Step) : list (PipelineStage.t * Result PyValue) :=
  omap (fun s => match s with Call stage o => Some (stage, o) | Reg _ => None end) steps.

(** The run states a sequence of registry calls goes through. *)
Fixpoint states_along (run_id : string) (st : RunState.t) (cs : list RegistryCall)
  : list RunState.t :=
  match cs with
  | [] => []
  | c :: cs' => effect run_id c st :: states_along run_id (effect run_id c st) cs'
  end.

(** A coroutine that behaves as a fixed sequence of steps. *)
Definition runs_as {A} (run_id : string) (c : M A) (steps : list Step) (res : Result A) : Prop :=
  forall w, c w = (do_steps run_id w steps, res).

Definition run_calls (run_id : string) (st : RunState.t) (cs : list RegistryCall) : RunState.t :=
  foldl (fun s c => effect run_id c s) st cs.

(** The terminal events of a channel. *)
Definition is_terminal (ev : Event) : bool :=
  match ev with
  | EvComplete _ _ | EvError _ _ => true
  | _ => false
  end.

(** A queue item that is an event, and not a terminal one. *)
Definition is_plain_item (item : option Event) : bool :=
  match item with
  | Some ev => negb (is_terminal ev)
  | None => false
  end.

Definition is_stage_event (ev : Event) : option PipelineStageSnapshot.t :=
  match ev with
  | EvStage _ snapshot => Some snapshot
  | _ => None
  end.

(** The snapshots of the [stage] events of a queue, in queue order. *)
Definition stage_events (q : list (option Event)) : list PipelineStageSnapshot.t :=
  omap (fun item => item ≫= is_stage_event) q.

(** A list without its consecutive repetitions. *)
Fixpoint collapse (l : list PipelineStage.t) : list PipelineStage.t :=
  match l with
  | [] => []
  | x :: rest =>
      match rest with
      | y :: _ => if decide (x = y) then collapse rest else x :: collapse rest
      | [] => [x]
      end
  end.

(** No two neighbours of the list are both in [running] status. *)
Fixpoint no_running_twice (l : list PipelineStageSnapshot.t) : bool :=
  match l with
  | a :: rest =>
      match rest with
      | b :: _ =>
          negb (String.eqb (PipelineStageSnapshot.status a) "running"
                && String.eqb (PipelineStageSnapshot.status b) "running")
          && no_running_twice rest
      | [] => true
      end
  | [] => true
  end.

(** What a status query returns for [run_id] at each point of the history. *)
Definition status_log (run_id : string) (w : World)
  : list (option PipelineRunStatusResponse.t) :=
  (fun runs => match (RunStateManager.get_status run_id (fresh_world runs)).2 with
               | inr r => r
               | inl _ => None
               end) <$> history w.

(** Arbitrary use of the registry: creations and calls on any run. *)
Inductive RegistryOp :=
| CreateRun (run_id run_name : string) (request : PipelineRunRequest.t)
| OnRun (run_id : string) (c : RegistryCall).

Definition run_op (w : World) (op : RegistryOp) : World :=
  match op with
  | CreateRun run_id run_name request =>
      (RunStateManager.create_run run_id run_name request w).1
  | OnRun run_id c => (perform run_id c w).1
  end.

Definition run_ops (ops : list RegistryOp) : World := foldl run_op (fresh_world ∅) ops.

(** ** The shape of an orchestrated run

    A stage that succeeded contributes three steps, the stage that failed
    three others; [execute_shape] lists the traces [_execute] can leave. *)

Record StageDone := mkDone {
  done_stage : PipelineStage.t;
  done_result : PyValue;
  done_detail : string;
  done_payload : option PyDict }.

Definition done_steps (d : StageDone) : list Step :=
  [Reg (UpdateStage (done_stage d) "running" None None);
   Call (done_stage d) (inr (done_result d));
   Reg (UpdateStage (done_stage d) "done" (Some (done_detail d)) (done_payload d))].

Definition failed_steps (stage : PipelineStage.t) (outcome : Result PyValue) (exc : PyExc)
  : list Step :=
  [Reg (UpdateStage stage "running" None None);
   Call stage outcome;
   Reg (UpdateStage stage "error" (Some (exc_str exc)) None)].

(** The exception [_run_stage] raises for a failed stage. *)
Definition stage_failed (stage : PipelineStage.t) (exc : PyExc) : PyExc :=
  Exc "RuntimeError" ("Stage " +:+ PipelineStage.value stage +:+ " failed") (Some exc).

Inductive execute_shape : list Step -> Result PipelineRunResponse.t -> Prop :=
| shape_failed pre stage outcome exc :
    (done_stage <$> pre) ++ [stage] = take (S (length pre)) PIPELINE_STAGE_ORDER ->
    length pre < 6 ->
    (forall e, outcome = inl e -> e = exc) ->
    execute_shape (concat (done_steps <$> pre) ++ failed_steps stage outcome exc)
                  (inl (stage_failed stage exc))
| shape_finished pre detail res :
    done_stage <$> pre = take 6 PIPELINE_STAGE_ORDER ->
    (forall response, res = inr response -> PipelineRunResponse.outputs response <> []) ->
    execute_shape
      (concat (done_steps <$> pre)
       ++ [Reg (UpdateStage PipelineStage.completed "done" (Some detail) None)])
      res.

(** The registry call that closes a tracked run. *)
Definition closing_call (res : Result PipelineRunResponse.t) : RegistryCall :=
  match res with
  | inr response => MarkRunCompleted response
  | inl exc => MarkRunFailed (exc_str exc)
  end.

Definition tracked_steps (steps : list Step) (res : Result PipelineRunResponse.t)
  : list Step :=
  Reg MarkRunStarted :: steps ++ [Reg (closing_call res)].

(** ** Notions used by the statements *)

(** What [get_status] answers for a known run. *)
Definition status_response (run_id : string) (state : RunState.t)
  : PipelineRunStatusResponse.t :=
  PipelineRunStatusResponse.mk run_id (RunState.run_name state) (RunState.status state)
    (RunState.stage_snapshots state) (RunState.outputs state).

(** The state [create_run] stores. *)
Definition created_state (run_id run_name : string) (request : PipelineRunRequest.t)
  : RunState.t :=
  let state :=
    RunState.mk run_id run_name request PipelineRunStatus.queued
      RunStateManager.initial_stages [] [] in
  RunState.put (Some (EvInit run_id run_name (RunState.stage_snapshots state))) state.

(** Every stage has a snapshot, filed under its own name. *)
Definition stages_complete (st : RunState.t) : Prop :=
  forall stage, exists snapshot,
    RunState.stages st !! stage = Some snapshot
    /\ PipelineStageSnapshot.stage snapshot = stage.

(** The dict entries of a list of values. *)
Definition dict_entries (items : list PyValue) : list PyDict :=
  omap (fun item => match item with VDict d => Some d | _ => None end) items.

(** An asset reduced to identifier, local path and license. *)
Definition asset_summary (d : PyDict) : PyValue :=
  VDict [("id", dict_get d "id" VNone);
         ("local_path", dict_get d "local_path" VNone);
         ("license", dict_get d "license" VNone)].

(** The sanitization rule on values that are not strings, in the words of
    the specification: each is coerced to its string form. *)
Definition coerces_every_other_kind (outputs_dir : string)
    (py_str_other : PyValue -> string) (payload : PyDict) : Prop :=
  forall key value sanitized,
    _sanitize_payload outputs_dir py_str_other (VDict payload) = inr (VDict sanitized) ->
    dict_lookup key payload = Some value ->
    key <> "assets" ->
    (forall s, value <> VStr s) ->
    dict_lookup key sanitized = Some (VStr (py_str py_str_other value)).

(** ** Sample inputs *)

(** What [VoiceoverService.synthesize] returns when no audio is available. *)
Definition voiceover_failed_payload : PyDict :=
  [("voiceover_path", VStr "/srv/app/outputs/audio/demo_voiceover.mp3");
   ("status", VStr "failed");
   ("error", VStr "tts_unavailable");
   ("fallback_available", VBool false)].

(** A result of [AssetService.prepare_assets]. *)
Definition ingest_payload : PyDict :=
  [("assets",
    VList [VDict [("id", VStr "a1");
                  ("local_path", VStr "/srv/app/assets/downloads/a1.mp4");
                  ("keywords", VList [VStr "family learning"]);
                  ("license", VStr "CC0");
                  ("source_url", VStr "https://example.org/a1.mp4");
                  ("placeholder", VBool false)]]);
   ("requested_keywords", VList [VStr "family learning"]);
   ("assets_dir", VStr "/srv/app/assets/downloads")].

Definition sample_outputs_dir : string := "/srv/app/outputs".

Definition sample_str_other (v : PyValue) : string := "<object>".

Definition sample_request : PipelineRunRequest.t :=
  PipelineRunRequest.mk "demo"
    [PipelinePlatform.instagram; PipelinePlatform.tiktok] ["family learning"] None.

Definition sample_narrative : PyValue :=
  VData "NarrativePayload"
    [("master_script", VStr "Learning together.");
     ("instagram_caption", VStr "Learn with us");
     ("instagram_hashtags", VList [VStr "#learning"]);
     ("tiktok_caption", VStr "Learn fast");
     ("tiktok_hashtags", VList [VStr "#stem"]);
     ("cta", VStr "Join today")].

(** Services that all succeed. *)
Definition working_services : Services := {|
  prepare_assets := fun _ => ok (VDict ingest_payload);
  generate := fun _ _ _ => ok sample_narrative;
  synthesize := fun _ _ => ok (VDict voiceover_failed_payload);
  produce_videos := fun _ _ _ =>
    ok (VDict [("instagram_video", VStr "/srv/app/outputs/demo/instagram.mp4");
               ("tiktok_video", VStr "/srv/app/outputs/demo/tiktok.mp4")]);
  package := fun _ _ _ _ =>
    ok (VDict [("metadata_path", VStr "/srv/app/outputs/demo/metadata.json");
               ("bundle_dir", VStr "/srv/app/outputs/demo")]);
  evaluate := fun _ _ =>
    ok (VData "AnalyticsPayload"
          [("expected_ctr", VFloat 0.25); ("retention_score", VFloat 0.75);
           ("narrative_complexity", VFloat 0.5)]) |}.

Definition render_error : PyExc := Exc "OSError" "ffmpeg not found" None.

(** The same services, with a renderer that raises. *)
Definition failing_editing_services : Services := {|
  prepare_assets := prepare_assets working_services;
  generate := generate working_services;
  synthesize := synthesize working_services;
  produce_videos := fun _ _ _ => inl render_error;
  package := package working_services;
  evaluate := evaluate working_services |}.

(** A registry holding one freshly created run. *)
Definition sample_runs : gmap string RunState.t :=
  {[ "r1" := created_state "r1" "demo" sample_request ]}.

(** The world after run [r1] was created and driven with tracking. *)
Definition sample_run_world (services : Services) : World :=
  (execute_with_tracking sample_outputs_dir sample_str_other "2025-01-01T00:00:00"
     services "r1" sample_request
     (RunStateManager.create_run "r1" "demo" sample_request (fresh_world ∅)).1).1.

(** [c] continues a run whose stages [pre] are done. *)
Definition continues {A} (rid : string) (pre : list StageDone) (c : M A)
    (wrap : Result A -> Result PipelineRunResponse.t) : Prop :=
  exists steps res,
    runs_as rid c steps res
    /\ execute_shape (concat (done_steps <$> pre) ++ steps) (wrap res).


(** ** The HTTP handlers ([api/v1/pipeline.py])

    [HTTPException(status_code=404, detail="Run not found")] is the one
    error the handlers raise. *)

Definition http_not_found : PyExc := Exc "HTTPException" "404: Run not found" None.

(** How the loop of [event_generator] stands once the queue holds nothing
    more for it: it took the sentinel and ended, or it waits in
    [queue.get()]. *)
Inductive StreamEnd := StreamClosed | StreamWaiting.

(** [event_generator] on the items the queue holds: the messages yielded,
    the items left in the queue, and how the loop stands. *)
Fixpoint event_generator (queue : list (option Event))
  : list Event * list (option Event) * StreamEnd :=
  match queue with
  | [] => ([], [], StreamWaiting)
  | None :: rest => ([], rest, StreamClosed)
  | Some message :: rest =>
      let '(yielded, remaining, e) := event_generator rest in
      (message :: yielded, remaining, e)
  end.

(** The items [queue.get()] removed from the queue of a run; a status query
    does not see the queue, so [history] is not extended. *)
Definition take_from_queue (run_id : string) (remaining : list (option Event)) : M unit :=
  fun w =>
    match _runs w !! run_id with
    | Some st =>
        (mkWorld
           (<[run_id := RunState.mk (RunState.run_id st) (RunState.run_name st)
                          (RunState.request st) (RunState.status st)
                          (RunState.stages st) (RunState.outputs st) remaining]> (_runs w))
           (history w) (executed w),
         inr tt)
    | None => (w, inr tt)
    end.

(** [stream_pipeline_run], with the response body read until the generator
    ends or waits. *)
Definition stream_pipeline_run (run_id : string) : M (list Event * StreamEnd) :=
  (queue <- RunStateManager.get_queue run_id ;;
   match queue with
   | None => raise http_not_found
   | Some queue =>
       let '(yielded, remaining, e) := event_generator queue in
       take_from_queue run_id remaining ;;
       ret (yielded, e)
   end)%coro.

(** [get_pipeline_run_status]. *)
Definition get_pipeline_run_status (run_id : string) : M PipelineRunStatusResponse.t :=
  (status <- RunStateManager.get_status run_id ;;
   match status with
   | None => raise http_not_found
   | Some status => ret status
   end)%coro.

(** ** Replaying a channel

    What a subscriber that starts from the [init] event and applies every
    [stage] and [run] event knows about the run. *)

Definition replay_stage (acc : gmap PipelineStage.t PipelineStageSnapshot.t)
    (item : option Event) : gmap PipelineStage.t PipelineStageSnapshot.t :=
  match item with
  | Some (EvInit _ _ snapshots) =>
      list_to_map ((fun s => (PipelineStageSnapshot.stage s, s)) <$> snapshots)
  | Some (EvStage _ snapshot) => <[PipelineStageSnapshot.stage snapshot := snapshot]> acc
  | _ => acc
  end.

Definition replay_stages (q : list (option Event))
  : gmap PipelineStage.t PipelineStageSnapshot.t :=
  foldl replay_stage ∅ q.

Definition replay_status (q : list (option Event)) : string :=
  foldl (fun acc item => match item with Some (EvRun _ status) => status | _ => acc end)
        "queued" q.

(** ** Asset selection ([assets_service.py]) *)

Module AssetDescriptor.
Record t := mk {
  asset_id : string;
  filename : string;
  source_url : string;
  keywords : list string;
  license : string;
  local_path : option string }.
End AssetDescriptor.

(** [list.sort(key=..., reverse=True)] on scored items: the sort is stable,
    so an item goes before the first item whose score is not greater. *)
Fixpoint insert_scored {A} (x : nat * A) (l : list (nat * A)) : list (nat * A) :=
  match l with
  | [] => [x]
  | y :: rest => if decide (y.1 <= x.1) then x :: l else y :: insert_scored x rest
  end.

Definition sort_scored {A} (l : list (nat * A)) : list (nat * A) :=
  foldr insert_scored [] l.

Section AssetService.
(** [str.lower]. *)
Variable lower : string -> string.

(** [sum(1 for keyword in asset.keywords if keyword.lower() in keywords)]. *)
Definition asset_score (keywords : list string) (asset : AssetDescriptor.t) : nat :=
  length (filter (fun keyword => lower keyword ∈ keywords) (AssetDescriptor.keywords asset)).

(** [AssetService._select_assets]; the set of lowered keywords is kept as a
    list, of which only membership and emptiness are used. *)
Definition _select_assets (manifest : list AssetDescriptor.t)
    (requested_keywords : list string) : list AssetDescriptor.t :=
  let keywords := lower <$> requested_keywords in
  if decide (keywords = []) then take 3 manifest
  else
    let scored := (fun asset => (asset_score keywords asset, asset)) <$> manifest in
    let scored := sort_scored scored in
    let top := snd <$> filter (fun item => 0 < item.1) scored in
    let top := if decide (length top < 2) then snd <$> scored else top in
    take 3 top.

(** The manifest scored and sorted, the list [scored] of [_select_assets]
    after its sort. *)
Definition ranked_assets (manifest : list AssetDescriptor.t)
    (requested_keywords : list string) : list (nat * AssetDescriptor.t) :=
  sort_scored ((fun asset => (asset_score (lower <$> requested_keywords) asset, asset))
                 <$> manifest).
End AssetService.

Section Api.
Variable outputs_dir : string.
Variable py_str_other : PyValue -> string.
Variable utcnow_isoformat : string.
Variable services : Services.

(** [trigger_pipeline_run]; [run_id] is the token [create_run] draws.  The
    handler returns the id of the run it created. *)
Definition trigger_pipeline_run (run_id : string) (payload : PipelineRunRequest.t)
  : M string :=
  (state <- RunStateManager.create_run run_id (PipelineRunRequest.run_name payload) payload ;;
   ret (RunState.run_id state))%coro.

(** The handler followed by the background task it scheduled,
    [runner.execute_with_tracking(state.run_id, payload)]. *)
Definition trigger_and_run (run_id : string) (payload : PipelineRunRequest.t) : M string :=
  (rid <- trigger_pipeline_run run_id payload ;;
   execute_with_tracking outputs_dir py_str_other utcnow_isoformat services rid payload ;;
   ret rid)%coro.
End Api.

(** ** Relations between worlds kept by a coroutine *)

(** [c] takes every world to one related to it by [R]. *)
Definition keeps {A} (R : World -> World -> Prop) (c : M A) : Prop :=
  forall w, R w (c w).1.

(** The registry is as it was: no run changed and no registry operation
    took effect. *)
Definition registry_untouched (w w' : World) : Prop :=
  _runs w' = _runs w /\ history w' = history w.

(** The run [run_id] is as it was. *)
Definition run_untouched (run_id : string) (w w' : World) : Prop :=
  _runs w' !! run_id = _runs w !! run_id.

(** Two coroutines that return or raise the same and call the same
    executors, whatever the worlds they start in. *)
Definition same_outcome {A} (c1 c2 : M A) : Prop :=
  forall w1 w2,
    (c1 w1).2 = (c2 w2).2
    /\ exists calls,
        executed (c1 w1).1 = executed w1 ++ calls
        /\ executed (c2 w2).1 = executed w2 ++ calls.

Definition replay_outputs (q : list (option Event)) : PyDict :=
  foldl (fun acc item =>
           match item with
           | Some (EvComplete _ response) => PipelineRunResponse.outputs response
           | _ => acc
           end)
        [] q.

(** The channel tells the state: replaying the queue gives the stage
    snapshots, the status and the outputs the run state holds. *)
Definition channel_mirrors_state (st : RunState.t) : Prop :=
  replay_stages (RunState.queue st) = RunState.stages st
  /\ replay_status (RunState.queue st) = PipelineRunStatus.value (RunState.status st)
  /\ replay_outputs (RunState.queue st) = RunState.outputs st.

(** With no run under [run_id], the registry stays as it is. *)
Definition untouched_when_unknown (run_id : string) (w w' : World) : Prop :=
  _runs w !! run_id = None -> registry_untouched w w'.

(** ** Further sample inputs *)

(** The response of an untracked run with the working services. *)
Definition sample_response : PipelineRunResponse.t :=
  match (run sample_outputs_dir sample_str_other "2025-01-01T00:00:00" working_services
           sample_request (fresh_world ∅)).2 with
  | inr response => response
  | inl _ => PipelineRunResponse.mk "" [] []
  end.

(** A registry with two runs, [r1] and [r2]. *)
Definition two_runs : gmap string RunState.t :=
  <[ "r2" := created_state "r2" "other" sample_request ]> sample_runs.

(** A run whose channel was closed by [mark_run_failed]. *)
Definition closed_run : RunState.t :=
  effect "r1" (MarkRunFailed "boom") (created_state "r1" "demo" sample_request).

Definition sample_manifest : list AssetDescriptor.t :=
  [AssetDescriptor.mk "a1" "a1.mp4" "" ["campus"; "luxury"] "CC0" None;
   AssetDescriptor.mk "a2" "a2.mp4" "" ["stem"; "kids"] "CC0" None;
   AssetDescriptor.mk "a3" "a3.mp4" "" ["family"] "CC0" None;
   AssetDescriptor.mk "a4" "a4.mp4" "" ["stem"; "family"; "kids"] "CC0" None].

(** Lower-casing on keywords that are in lower case already. *)
Definition keep_case (s : string) : string := s.

(** * Properties *)

(** ** Registry calls as steps *)

Lemma perform_step rid c w : perform rid c w = (do_step rid w (Reg c), inr tt).
Proof.
  destruct c; cbn; unfold RunStateManager.mark_run_started, RunStateManager.update_stage,
    RunStateManager.mark_run_completed, RunStateManager.mark_run_failed,
    bind, RunStateManager._get_run; cbn;
    destruct (_runs w !! rid) as [st|]; try reflexivity;
    unfold store, effect, RunState.put, RunState.set_status, RunState.set_outputs,
      RunState.set_stage; cbn; rewrite <- ?app_assoc; reflexivity.
Qed.

Lemma do_steps_app rid w s1 s2 :
  do_steps rid w (s1 ++ s2) = do_steps rid (do_steps rid w s1) s2.
Proof. apply foldl_app. Qed.

Lemma do_steps_cons rid w s steps :
  do_steps rid w (s :: steps) = do_steps rid (do_step rid w s) steps.
Proof. reflexivity. Qed.

Lemma do_step_runs rid w s st :
  _runs w !! rid = Some st ->
  _runs (do_step rid w s) !! rid
  = Some (match s with Reg c => effect rid c st | Call _ _ => st end).
Proof.
  intros H. destruct s as [c|stage o]; cbn; [|done].
  rewrite H. cbn. apply lookup_insert_eq.
Qed.

Lemma do_steps_runs rid steps : forall w st,
  _runs w !! rid = Some st ->
  _runs (do_steps rid w steps) !! rid = Some (run_calls rid st (registry_calls steps)).
Proof.
  induction steps as [|s steps IH]; intros w st H; [done|].
  rewrite do_steps_cons. erewrite IH; [|by apply do_step_runs].
  destruct s; reflexivity.
Qed.

Lemma do_steps_executed rid steps : forall w,
  executed (do_steps rid w steps) = executed w ++ executor_calls steps.
Proof.
  induction steps as [|s steps IH]; intros w.
  - cbn. by rewrite app_nil_r.
  - rewrite do_steps_cons, IH.
    destruct s as [c|stage o]; cbn.
    + by destruct (_runs w !! rid).
    + by rewrite <- app_assoc.
Qed.

Lemma do_steps_history rid steps : forall w st,
  _runs w !! rid = Some st ->
  (fun runs => runs !! rid) <$> history (do_steps rid w steps)
  = ((fun runs => runs !! rid) <$> history w)
    ++ (Some <$> states_along rid st (registry_calls steps)).
Proof.
  induction steps as [|s steps IH]; intros w st H.
  - cbn. by rewrite app_nil_r.
  - rewrite do_steps_cons. erewrite IH; [|by apply do_step_runs].
    destruct s as [c|stage o]; cbn; [|done].
    rewrite H. cbn. rewrite fmap_app. cbn. rewrite lookup_insert_eq.
    by rewrite <- app_assoc.
Qed.

Lemma run_calls_queue rid cs : forall st,
  RunState.queue (run_calls rid st cs) = RunState.queue st ++ concat (events rid <$> cs).
Proof.
  induction cs as [|c cs IH]; intros st; cbn.
  - by rewrite app_nil_r.
  - unfold run_calls in IH. rewrite IH. cbn. by rewrite <- app_assoc.
Qed.

Lemma runs_as_ret {A} rid (x : A) : runs_as rid (ret x) [] (inr x).
Proof. by intros w. Qed.

Lemma runs_as_lift {A} rid (r : Result A) : runs_as rid (lift r) [] r.
Proof. by intros w. Qed.

Lemma runs_as_perform rid c : runs_as rid (perform rid c) [Reg c] (inr tt).
Proof. intros w. apply perform_step. Qed.

Lemma runs_as_to_thread rid stage o : runs_as rid (to_thread stage o) [Call stage o] o.
Proof. by intros w. Qed.

Lemma runs_as_bind_ok {A B} rid (c : M A) (k : A -> M B) s1 x s2 r :
  runs_as rid c s1 (inr x) -> runs_as rid (k x) s2 r ->
  runs_as rid (bind c k) (s1 ++ s2) r.
Proof. intros H1 H2 w. unfold bind. by rewrite H1, H2, do_steps_app. Qed.

Lemma runs_as_bind_err {A B} rid (c : M A) (k : A -> M B) s1 e :
  runs_as rid c s1 (inl e) -> runs_as rid (bind c k) s1 (inl e).
Proof. intros H1 w. unfold bind. by rewrite H1. Qed.

Lemma runs_as_try_ok {A} rid (c : M A) h s1 x :
  runs_as rid c s1 (inr x) -> runs_as rid (try_except c h) s1 (inr x).
Proof. intros H1 w. unfold try_except. by rewrite H1. Qed.

Lemma runs_as_try_err {A} rid (c : M A) h s1 e s2 r :
  runs_as rid c s1 (inl e) -> runs_as rid (h e) s2 r ->
  runs_as rid (try_except c h) (s1 ++ s2) r.
Proof. intros H1 H2 w. unfold try_except. by rewrite H1, H2, do_steps_app. Qed.

Lemma runs_as_if_run_id rid k c :
  rid <> "" -> (forall w, k rid w = perform rid c w) ->
  runs_as rid (if_run_id (Some rid) k) [Reg c] (inr tt).
Proof.
  intros Hne Hk w. unfold if_run_id.
  destruct (String.eqb_spec rid ""); [done|]. rewrite Hk. apply perform_step.
Qed.

Lemma get_status_known rid w st :
  _runs w !! rid = Some st ->
  RunStateManager.get_status rid w = (w, inr (Some (status_response rid st))).
Proof.
  intros H. unfold RunStateManager.get_status, bind, RunStateManager._get_run. by rewrite H.
Qed.

Lemma get_status_unknown rid w :
  _runs w !! rid = None -> RunStateManager.get_status rid w = (w, inr None).
Proof.
  intros H. unfold RunStateManager.get_status, bind, RunStateManager._get_run. by rewrite H.
Qed.

Lemma status_log_lookup rid w :
  status_log rid w = (fun o => status_response rid <$> o) <$> ((fun m => m !! rid) <$> history w).
Proof.
  unfold status_log. rewrite <- list_fmap_compose. apply list_fmap_ext. intros _ m _. unfold compose.
  destruct (m !! rid) as [st|] eqn:H.
  - by rewrite (get_status_known rid (fresh_world m) st H).
  - by rewrite (get_status_unknown rid (fresh_world m) H).
Qed.

Lemma create_run_world rid run_name request w :
  RunStateManager.create_run rid run_name request w
  = (mkWorld (<[rid := created_state rid run_name request]> (_runs w))
       (history w ++ [<[rid := created_state rid run_name request]> (_runs w)])
       (executed w),
     inr (created_state rid run_name request)).
Proof. reflexivity. Qed.


Ltac split_pre pre Hpre :=
  destruct pre as [|[? ? ? ?] pre];
  [ cbn in Hpre; try discriminate Hpre; try (injection Hpre as ->)
  | cbn in Hpre; try discriminate Hpre;
    first [ exfalso; cbn in *; lia
          | injection Hpre as -> Hpre; split_pre pre Hpre ] ].

Ltac shape_cases H :=
  let pre := fresh "pre" in
  let Hpre := fresh "Hpre" in
  let Hlen := fresh "Hlen" in
  let Hexc := fresh "Hexc" in
  let Hout := fresh "Hout" in
  inversion H as [pre ? ? ? Hpre Hlen Hexc | pre ? ? Hpre Hout]; subst; clear H;
  [ clear Hlen | ]; split_pre pre Hpre.



(** ** The orchestrator *)

Section Orchestrator.
Context (outputs_dir : string) (py_str_other : PyValue -> string)
        (utcnow_isoformat : string) (services : Services).

Lemma run_stage_cases rid stage snapshots executor detail_builder :
  rid <> "" ->
  (exists exc,
      runs_as rid (_run_stage outputs_dir py_str_other stage snapshots executor
                     detail_builder (Some rid))
        (failed_steps stage executor exc) (inl (stage_failed stage exc))
      /\ forall e, executor = inl e -> e = exc)
  \/ (exists result detail payload,
      runs_as rid (_run_stage outputs_dir py_str_other stage snapshots executor
                     detail_builder (Some rid))
        (done_steps (mkDone stage result detail payload))
        (inr (result,
              snapshots ++ [PipelineStageSnapshot.mk stage "done" (Some detail) payload]))).
Proof.
  intros Hne. unfold _run_stage.
  assert (Hupd : forall st d p,
    runs_as rid (if_run_id (Some rid) (fun rid0 =>
      RunStateManager.update_stage rid0 stage st d p)) [Reg (UpdateStage stage st d p)] (inr tt)).
  { intros. by apply runs_as_if_run_id. }
  assert (Hfail : forall exc,
    runs_as rid (if_run_id (Some rid) (fun rid0 =>
         RunStateManager.update_stage rid0 stage "error" (Some (exc_str exc)) None) ;;
       (raise (Exc "RuntimeError" ("Stage " +:+ PipelineStage.value stage +:+ " failed")
                (Some exc)) : M (PyValue * list PipelineStageSnapshot.t)))
      [Reg (UpdateStage stage "error" (Some (exc_str exc)) None)] (inl (stage_failed stage exc))).
  { intros exc. eapply (runs_as_bind_ok _ _ _ [_] tt []); [apply Hupd|]. by intros w. }
  destruct executor as [e|result] eqn:Hex.
  { left. exists e. split; [|congruence].
    eapply (runs_as_bind_ok _ _ _ [_] tt); [apply Hupd|].
    eapply (runs_as_try_err _ _ _ [_] e); [|by apply Hfail].
    apply runs_as_bind_err. apply runs_as_to_thread. }
  destruct (detail_builder result) as [e|detail] eqn:Hd.
  { left. exists e. split; [|congruence].
    eapply (runs_as_bind_ok _ _ _ [_] tt); [apply Hupd|].
    eapply (runs_as_try_err _ _ _ [_] e); [|by apply Hfail].
    eapply (runs_as_bind_ok _ _ _ [_] result []); [apply runs_as_to_thread|].
    apply runs_as_bind_err. rewrite Hd. apply runs_as_lift. }
  destruct (rbind (_sanitize_payload outputs_dir py_str_other result) validate_payload)
    as [e|payload] eqn:Hp.
  { left. exists e. split; [|congruence].
    eapply (runs_as_bind_ok _ _ _ [_] tt); [apply Hupd|].
    eapply (runs_as_try_err _ _ _ [_] e); [|by apply Hfail].
    eapply (runs_as_bind_ok _ _ _ [_] result []); [apply runs_as_to_thread|].
    eapply (runs_as_bind_ok _ _ _ [] detail []); [rewrite Hd; apply runs_as_lift|].
    apply runs_as_bind_err. rewrite Hp. apply runs_as_lift. }
  right. exists result, detail, payload.
  eapply (runs_as_bind_ok _ _ _ [_] tt); [apply Hupd|].
  apply runs_as_try_ok.
  eapply (runs_as_bind_ok _ _ _ [_] result [_]); [apply runs_as_to_thread|].
  eapply (runs_as_bind_ok _ _ _ [] detail [_]); [rewrite Hd; apply runs_as_lift|].
  eapply (runs_as_bind_ok _ _ _ [] payload [_]); [rewrite Hp; apply runs_as_lift|].
  eapply (runs_as_bind_ok _ _ _ [_] tt []); [apply Hupd|].
  apply runs_as_ret.
Qed.

Lemma continues_done {A B} rid pre (c : M A) (k : A -> M B) d x wrap :
  runs_as rid c (done_steps d) (inr x) ->
  continues rid (pre ++ [d]) (k x) wrap ->
  continues rid pre (bind c k) wrap.
Proof.
  intros Hc (steps & res & Hk & Hshape).
  exists (done_steps d ++ steps), res. split; [by eapply runs_as_bind_ok|].
  rewrite fmap_app, concat_app in Hshape. cbn [fmap list_fmap concat] in Hshape.
  by rewrite app_nil_r, <- app_assoc in Hshape.
Qed.

Lemma continues_failed {A B} rid pre (c : M A) (k : A -> M B) stage outcome exc
    (wrap : Result B -> _) :
  runs_as rid c (failed_steps stage outcome exc) (inl (stage_failed stage exc)) ->
  (forall e, outcome = inl e -> e = exc) ->
  (done_stage <$> pre) ++ [stage] = take (S (length pre)) PIPELINE_STAGE_ORDER ->
  length pre < 6 ->
  wrap (inl (stage_failed stage exc)) = inl (stage_failed stage exc) ->
  continues rid pre (bind c k) wrap.
Proof.
  intros Hc Hexc Hpre Hlen Hwrap.
  exists (failed_steps stage outcome exc), (inl (stage_failed stage exc)).
  split; [by apply runs_as_bind_err|]. rewrite Hwrap. by constructor.
Qed.

Lemma execute_runs rid request :
  rid <> "" ->
  exists steps res,
    runs_as rid (_execute outputs_dir py_str_other utcnow_isoformat services request
                   (Some rid)) steps res
    /\ execute_shape steps res.
Proof.
  intros Hne.
  cut (continues rid [] (_execute outputs_dir py_str_other utcnow_isoformat services
                           request (Some rid)) id).
  { intros (steps & res & H1 & H2). by exists steps, res. }
  unfold _execute.
  repeat
    lazymatch goal with
    | |- continues _ ?pre (bind (_run_stage _ _ ?stage ?snaps ?ex ?db _) _) _ =>
        destruct (run_stage_cases rid stage snaps ex db Hne)
          as [(? & Hrun & Hexc) | (? & ? & ? & Hrun)];
        [ eapply continues_failed; [exact Hrun | exact Hexc | reflexivity | cbn; lia | reflexivity]
        | eapply continues_done; [exact Hrun | cbn beta iota; clear Hrun] ]
    end.
  cbn [app].
  match goal with
  | |- continues _ _ (bind ?c ?k) _ =>
      assert (Hupd : runs_as rid c
        [Reg (UpdateStage PipelineStage.completed "done"
                (Some ("Run finished at " +:+ utcnow_isoformat +:+ "Z")) None)] (inr tt))
        by (by apply runs_as_if_run_id);
      assert (Hres : exists res, (forall w, k tt w = (w, res))
        /\ forall response, res = inr response -> PipelineRunResponse.outputs response <> [])
  end.
  { unfold bind, lift, ret.
    repeat match goal with
    | |- context [platform_outputs ?o ?a ?b ?c ?d ?e] =>
        destruct (platform_outputs o a b c d e)
    | |- context [as_dict ?a] => destruct (as_dict a)
    end; eexists; (split; [reflexivity|]); intros ? [=]; by subst. }
  destruct Hres as (res & Hres & Hout).
  eexists _, res. split.
  - eapply (runs_as_bind_ok _ _ _ [_] tt []); [exact Hupd | intros w; apply Hres].
  - by apply shape_finished.
Qed.

Lemma tracked_runs rid request :
  rid <> "" ->
  exists steps res,
    execute_shape steps res
    /\ runs_as rid (_execute outputs_dir py_str_other utcnow_isoformat services request
                      (Some rid)) steps res
    /\ runs_as rid (execute_with_tracking outputs_dir py_str_other utcnow_isoformat
                      services rid request) (tracked_steps steps res) (inr tt).
Proof.
  intros Hne. destruct (execute_runs rid request Hne) as (steps & res & Hrun & Hshape).
  exists steps, res. split; [done|]. split; [done|].
  unfold execute_with_tracking, tracked_steps.
  pose proof (runs_as_perform rid MarkRunStarted) as Hstart.
  destruct res as [exc|response]; cbn [closing_call].
  - change (Reg MarkRunStarted :: steps ++ [Reg (MarkRunFailed (exc_str exc))])
      with ([Reg MarkRunStarted] ++ steps ++ [Reg (MarkRunFailed (exc_str exc))]).
    rewrite app_assoc. eapply runs_as_try_err.
    + eapply runs_as_bind_ok; [exact Hstart|]. apply runs_as_bind_err, Hrun.
    + apply (runs_as_perform rid (MarkRunFailed _)).
  - apply runs_as_try_ok.
    eapply (runs_as_bind_ok _ _ _ [_]); [exact Hstart|].
    eapply runs_as_bind_ok; [exact Hrun|].
    apply (runs_as_perform rid (MarkRunCompleted _)).
Qed.

Lemma tracked_world rid request w st :
  rid <> "" -> _runs w !! rid = Some st ->
  exists steps res,
    execute_shape steps res
    /\ let w' := (execute_with_tracking outputs_dir py_str_other utcnow_isoformat
                    services rid request w).1 in
       _runs w' !! rid = Some (run_calls rid st (registry_calls (tracked_steps steps res)))
       /\ executed w' = executed w ++ executor_calls steps
       /\ (fun m => m !! rid) <$> history w'
          = ((fun m => m !! rid) <$> history w)
            ++ (Some <$> states_along rid st (registry_calls (tracked_steps steps res)))
       /\ forall w0, (_execute outputs_dir py_str_other utcnow_isoformat services request
                        (Some rid) w0).2 = res.
Proof.
  intros Hne Hst.
  destruct (tracked_runs rid request Hne) as (steps & res & Hshape & Hexec & Hrun).
  exists steps, res. split; [done|]. cbn zeta. rewrite Hrun. cbn [fst].
  split; [by apply do_steps_runs|]. split; [|split].
  - rewrite do_steps_executed. cbn.
    unfold executor_calls. rewrite omap_app. cbn. by rewrite app_nil_r.
  - by erewrite do_steps_history.
  - intros w0. by rewrite Hexec.
Qed.

(** C1.  In a run driven with tracking, when the executor of stage [k]
    raises [exc]: the snapshot of [k] is recorded with status [error] and
    [str(exc)] as detail; [k] is the last executor called, after the stages
    before it; no [stage] event is published for a stage after [k];
    [_execute] raises [RuntimeError("Stage <k> failed")] caused by [exc];
    and the run ends in status [error]. *)
Theorem stage_failure_aborts_run rid request runs st k exc :
  rid <> "" -> runs !! rid = Some st ->
  let w := fresh_world runs in
  let w1 := (RunStateManager.mark_run_started rid w).1 in
  let w' := (execute_with_tracking outputs_dir py_str_other utcnow_isoformat services
               rid request w).1 in
  (k, inl exc) ∈ executed w' ->
  exists st' before new,
    _runs w' !! rid = Some st'
    /\ RunState.stages st' !! k
        = Some (PipelineStageSnapshot.mk k "error" (Some (exc_str exc)) None)
    /\ RunState.status st' = PipelineRunStatus.error
    /\ executed w' = before ++ [(k, inl exc)]
    /\ Forall (fun c => PipelineStage.index c.1 < PipelineStage.index k) before
    /\ RunState.queue st' = RunState.queue st ++ new
    /\ Forall (fun snap => PipelineStage.index (PipelineStageSnapshot.stage snap)
                            <= PipelineStage.index k) (stage_events new)
    /\ (_execute outputs_dir py_str_other utcnow_isoformat services request (Some rid) w1).2
        = inl (Exc "RuntimeError" ("Stage " +:+ PipelineStage.value k +:+ " failed")
                 (Some exc)).
Proof.
  intros Hne Hst w w1 w'.
  destruct (tracked_world rid request w st Hne Hst)
    as (steps & res & Hshape & Hruns & Hexec & _ & Hres).
  fold w' in Hruns, Hexec. rewrite Hexec, Hruns, Hres. clear Hruns Hexec Hres w1 w'.
  cbn [w executed fresh_world app]. clear w.
  intros Hin.
  shape_cases Hshape; cbn in Hin.
  all: repeat (apply elem_of_cons in Hin as [Hin|Hin]); try (by apply elem_of_nil in Hin);
    try discriminate Hin.
  all: injection Hin as -> <-; specialize (Hexc _ eq_refl) as ->.
  all: match goal with |- context [run_calls ?r ?s ?cs] =>
         exists (run_calls r s cs);
         match goal with |- context [?l = _ ++ [(_, inl _)]] =>
           exists (removelast l), (concat (events r <$> cs)) end end.
  all: split; [reflexivity|].
  all: split; [cbn; by rewrite lookup_insert_eq|].
  all: split; [reflexivity|].
  all: split; [reflexivity|].
  all: split; [cbn; repeat constructor|].
  all: split; [apply run_calls_queue|].
  all: split; [cbn; repeat constructor|reflexivity].
Qed.


Lemma created_run_world rid run_name request runs :
  rid <> "" ->
  exists steps res,
    execute_shape steps res
    /\ let st0 := created_state rid run_name request in
       let calls := registry_calls (tracked_steps steps res) in
       let w1 := (RunStateManager.create_run rid run_name request (fresh_world runs)).1 in
       let w' := (execute_with_tracking outputs_dir py_str_other utcnow_isoformat
                    services rid request w1).1 in
       _runs w' !! rid = Some (run_calls rid st0 calls)
       /\ status_log rid w'
          = (fun st => Some (status_response rid st)) <$> (st0 :: states_along rid st0 calls).
Proof.
  intros Hne. cbn zeta. rewrite create_run_world. cbn [fst].
  set (st0 := created_state rid run_name request).
  set (w1 := mkWorld _ _ _).
  assert (Hst : _runs w1 !! rid = Some st0) by apply lookup_insert_eq.
  destruct (tracked_world rid request w1 st0 Hne Hst)
    as (steps & res & Hshape & Hruns & _ & Hhist & _).
  exists steps, res. split; [done|]. split; [done|].
  rewrite status_log_lookup, Hhist. cbn [w1 history fresh_world app fmap list_fmap].
  rewrite lookup_insert_eq. cbn. f_equal. by rewrite <- list_fmap_compose.
Qed.

Lemma created_queue rid run_name request :
  exists snaps,
    length snaps = length PIPELINE_STAGE_ORDER
    /\ RunState.queue (created_state rid run_name request)
        = [Some (EvInit rid run_name snaps)].
Proof. eexists. split; [|reflexivity]. by vm_compute. Qed.

Ltac split_tail :=
  lazymatch goal with
  | |- ?l = ?b ++ _ => unify b (removelast (removelast l)); reflexivity
  end.

(** C2.  The channel of a run that was created and then driven with
    tracking holds exactly one terminal event ([complete] or [error]): it
    is followed at once by the sentinel [None], which is the last item,
    and every item before it is an event that is not terminal. *)
Theorem one_terminal_event_then_close rid run_name request runs :
  rid <> "" ->
  let w1 := (RunStateManager.create_run rid run_name request (fresh_world runs)).1 in
  let w' := (execute_with_tracking outputs_dir py_str_other utcnow_isoformat
               services rid request w1).1 in
  exists st' before terminal,
    _runs w' !! rid = Some st'
    /\ RunState.queue st' = before ++ [Some terminal; None]
    /\ is_terminal terminal = true
    /\ forallb is_plain_item before = true.
Proof.
  intros Hne w1 w'.
  destruct (created_run_world rid run_name request runs Hne)
    as (steps & res & Hshape & Hruns & _).
  fold w1 w' in Hruns. rewrite Hruns. clear Hruns w1 w'.
  destruct (created_queue rid run_name request) as (snaps0 & _ & Hq).
  shape_cases Hshape; try destruct res.
  all: eexists _, _, _; (split; [reflexivity|]); rewrite run_calls_queue, Hq; cbn.
  all: split; [split_tail|done].
Qed.

Lemma StronglySorted_lookup_le {A} (R : relation A) l :
  (forall x, R x x) -> StronglySorted R l ->
  forall i j a b, i <= j -> l !! i = Some a -> l !! j = Some b -> R a b.
Proof.
  intros Hrefl. induction 1 as [|x l Hl IH Hx]; intros i j a b Hij Hi Hj; [done|].
  destruct i as [|i], j as [|j]; cbn in Hi, Hj; simplify_eq.
  - apply Hrefl.
  - rewrite Forall_forall in Hx. apply Hx. by eapply list_elem_of_lookup_2.
  - lia.
  - eapply IH; [|done..]. lia.
Qed.

Lemma omap_id_Some {A B} (f : A -> B) (l : list A) :
  omap id ((fun x => Some (f x)) <$> l) = f <$> l.
Proof. induction l as [|x l IH]; [done|]. cbn. by rewrite IH. Qed.

(** C4.  The statuses a status query returns over the life of a tracked run
    are [queued], then [running], then one terminal status; their rank never
    decreases, and once a terminal status was returned, every later answer
    is terminal. *)
Theorem run_status_never_regresses rid run_name request runs :
  rid <> "" ->
  let w1 := (RunStateManager.create_run rid run_name request (fresh_world runs)).1 in
  let w' := (execute_with_tracking outputs_dir py_str_other utcnow_isoformat
               services rid request w1).1 in
  let seen := PipelineRunStatusResponse.status <$> omap id (status_log rid w') in
  (exists n final,
      seen = [PipelineRunStatus.queued] ++ replicate (S n) PipelineRunStatus.running
             ++ [final]
      /\ PipelineRunStatus.terminal final = true)
  /\ (forall i j a b, i <= j -> seen !! i = Some a -> seen !! j = Some b ->
         PipelineRunStatus.rank a <= PipelineRunStatus.rank b)
  /\ (forall i j a b, i <= j -> seen !! i = Some a -> seen !! j = Some b ->
         PipelineRunStatus.terminal a = true -> PipelineRunStatus.terminal b = true).
Proof.
  intros Hne w1 w' seen.
  destruct (created_run_world rid run_name request runs Hne)
    as (steps & res & Hshape & _ & Hlog).
  fold w1 w' in Hlog. unfold seen. rewrite Hlog. clear Hlog seen w1 w'.
  rewrite omap_id_Some, <- list_fmap_compose.
  set (l := _ <$> _).
  assert (Hl : (exists n final,
      l = [PipelineRunStatus.queued] ++ replicate (S n) PipelineRunStatus.running
             ++ [final]
      /\ PipelineRunStatus.terminal final = true)
    /\ StronglySorted (fun a b => PipelineRunStatus.rank a <= PipelineRunStatus.rank b) l).
  { subst l. shape_cases Hshape; try destruct res; cbn.
    all: split;
      [ lazymatch goal with
        | |- context [?l = _] =>
            exists (length l - 3), (default PipelineRunStatus.queued (last l)); by cbn
        end
      | repeat constructor ]. }
  destruct Hl as [Hform Hsorted]. split; [done|].
  assert (Hmono : forall i j a b, i <= j -> l !! i = Some a -> l !! j = Some b ->
            PipelineRunStatus.rank a <= PipelineRunStatus.rank b).
  { apply (StronglySorted_lookup_le _ l); [intros; lia | exact Hsorted]. }
  split; [done|].
  intros i j a b Hij Hi Hj Ha. specialize (Hmono i j a b Hij Hi Hj).
  destruct a, b; cbn in *; done || lia.
Qed.

(** C5.  The channel of a tracked run reads: the [init] event, the [run]
    event for [running], the [stage] events, the final [run] event, the
    terminal event, and the sentinel.  The stages of the [stage] events,
    with repetitions of one stage merged, are the first [n] declared stages
    in order (all of them when the run completes), and no two consecutive
    [stage] events are both in [running] status. *)
Theorem events_in_publication_order rid run_name request runs :
  rid <> "" ->
  let w1 := (RunStateManager.create_run rid run_name request (fresh_world runs)).1 in
  let w' := (execute_with_tracking outputs_dir py_str_other utcnow_isoformat
               services rid request w1).1 in
  exists st' initial snaps final terminal n,
    _runs w' !! rid = Some st'
    /\ RunState.queue st'
        = [Some (EvInit rid run_name initial); Some (EvRun rid "running")]
          ++ ((fun snap => Some (EvStage rid snap)) <$> snaps)
          ++ [Some (EvRun rid final); Some terminal; None]
    /\ is_terminal terminal = true
    /\ collapse (PipelineStageSnapshot.stage <$> snaps) = take n PIPELINE_STAGE_ORDER
    /\ 0 < n
    /\ (forall response, terminal = EvComplete rid response ->
          n = length PIPELINE_STAGE_ORDER)
    /\ no_running_twice snaps = true.
Proof.
  intros Hne w1 w'.
  destruct (created_run_world rid run_name request runs Hne)
    as (steps & res & Hshape & Hruns & _).
  fold w1 w' in Hruns. rewrite Hruns. clear Hruns w1 w'.
  destruct (created_queue rid run_name request) as (snaps0 & _ & Hq).
  shape_cases Hshape; try destruct res.
  all: eexists _, snaps0, _, _, _, _; (split; [reflexivity|]);
    rewrite run_calls_queue, Hq; cbn.
  all: split;
    [ lazymatch goal with
      | |- ?l = _ :: _ :: ?snaps ++ _ =>
          unify snaps ((fun snap => Some (EvStage rid snap)) <$> stage_events l);
          reflexivity
      end
    | ].
  all: split; [reflexivity|].
  all: split;
    [ lazymatch goal with
      | |- ?l = take ?n _ => unify n (length l); reflexivity
      end
    | ].
  all: split; [vm_compute; lia|].
  all: split; [|reflexivity]; intros response [=]; reflexivity.
Qed.

(** C8.  Every answer a status query gives over the life of a tracked run
    has empty outputs while the status is not terminal, and outputs that
    are not empty only with status [completed]. *)
Theorem outputs_empty_until_terminal rid run_name request runs :
  rid <> "" ->
  let w1 := (RunStateManager.create_run rid run_name request (fresh_world runs)).1 in
  let w' := (execute_with_tracking outputs_dir py_str_other utcnow_isoformat
               services rid request w1).1 in
  forall response,
    Some response ∈ status_log rid w' ->
    (PipelineRunStatus.terminal (PipelineRunStatusResponse.status response) = false ->
     PipelineRunStatusResponse.outputs response = [])
    /\ (PipelineRunStatusResponse.outputs response <> [] ->
        PipelineRunStatusResponse.status response = PipelineRunStatus.completed).
Proof.
  intros Hne w1 w'.
  destruct (created_run_world rid run_name request runs Hne)
    as (steps & res & Hshape & _ & Hlog).
  fold w1 w' in Hlog. rewrite Hlog. clear Hlog w1 w'.
  intros response Hin. apply list_elem_of_fmap in Hin as (st & [= ->] & Hin).
  revert st Hin. apply Forall_forall.
  shape_cases Hshape; try destruct res; cbn [tracked_steps registry_calls omap app fmap
    list_fmap concat done_steps failed_steps closing_call states_along].
  all: repeat constructor; cbn; intros; done.
Qed.
End Orchestrator.

(** *** Instances on the sample run *)

Lemma stage_failure_aborts_run_witness :
  exists st' before new,
    _runs (sample_run_world failing_editing_services) !! "r1" = Some st'
    /\ RunState.stages st' !! PipelineStage.editing
       = Some (PipelineStageSnapshot.mk PipelineStage.editing "error"
                 (Some "ffmpeg not found") None)
    /\ RunState.status st' = PipelineRunStatus.error
    /\ executed (sample_run_world failing_editing_services)
       = before ++ [(PipelineStage.editing, inl render_error)]
    /\ Forall (fun c => PipelineStage.index c.1 < 3) before
    /\ RunState.queue st'
       = RunState.queue (created_state "r1" "demo" sample_request) ++ new
    /\ Forall (fun snap => PipelineStage.index (PipelineStageSnapshot.stage snap) <= 3)
              (stage_events new)
    /\ (_execute sample_outputs_dir sample_str_other "2025-01-01T00:00:00"
          failing_editing_services sample_request (Some "r1")
          (RunStateManager.mark_run_started "r1" (fresh_world sample_runs)).1).2
       = inl (Exc "RuntimeError" "Stage editing failed" (Some render_error)).
Proof.
  apply (stage_failure_aborts_run sample_outputs_dir sample_str_other
           "2025-01-01T00:00:00" failing_editing_services "r1" sample_request
           sample_runs (created_state "r1" "demo" sample_request)
           PipelineStage.editing render_error).
  - discriminate.
  - reflexivity.
  - vm_compute. repeat constructor.
Defined.

Lemma one_terminal_event_then_close_witness :
  exists st' before terminal,
    _runs (sample_run_world working_services) !! "r1" = Some st'
    /\ RunState.queue st' = before ++ [Some terminal; None]
    /\ is_terminal terminal = true
    /\ forallb is_plain_item before = true.
Proof.
  apply (one_terminal_event_then_close sample_outputs_dir sample_str_other
           "2025-01-01T00:00:00" working_services "r1" "demo" sample_request ∅).
  discriminate.
Defined.

Lemma run_status_never_regresses_witness :
  let seen := PipelineRunStatusResponse.status
                <$> omap id (status_log "r1" (sample_run_world failing_editing_services)) in
  (exists n final,
      seen = [PipelineRunStatus.queued] ++ replicate (S n) PipelineRunStatus.running
             ++ [final]
      /\ PipelineRunStatus.terminal final = true)
  /\ (forall i j a b, i <= j -> seen !! i = Some a -> seen !! j = Some b ->
         PipelineRunStatus.rank a <= PipelineRunStatus.rank b)
  /\ (forall i j a b, i <= j -> seen !! i = Some a -> seen !! j = Some b ->
         PipelineRunStatus.terminal a = true -> PipelineRunStatus.terminal b = true).
Proof.
  apply (run_status_never_regresses sample_outputs_dir sample_str_other
           "2025-01-01T00:00:00" failing_editing_services "r1" "demo" sample_request ∅).
  discriminate.
Defined.

Lemma events_in_publication_order_witness :
  exists st' initial snaps final terminal n,
    _runs (sample_run_world working_services) !! "r1" = Some st'
    /\ RunState.queue st'
        = [Some (EvInit "r1" "demo" initial); Some (EvRun "r1" "running")]
          ++ ((fun snap => Some (EvStage "r1" snap)) <$> snaps)
          ++ [Some (EvRun "r1" final); Some terminal; None]
    /\ is_terminal terminal = true
    /\ collapse (PipelineStageSnapshot.stage <$> snaps) = take n PIPELINE_STAGE_ORDER
    /\ 0 < n
    /\ (forall response, terminal = EvComplete "r1" response ->
          n = length PIPELINE_STAGE_ORDER)
    /\ no_running_twice snaps = true.
Proof.
  apply (events_in_publication_order sample_outputs_dir sample_str_other
           "2025-01-01T00:00:00" working_services "r1" "demo" sample_request ∅).
  discriminate.
Defined.

Lemma outputs_empty_until_terminal_witness :
  (PipelineRunStatus.terminal
     (PipelineRunStatusResponse.status
        (status_response "r1" (created_state "r1" "demo" sample_request))) = false ->
   PipelineRunStatusResponse.outputs
     (status_response "r1" (created_state "r1" "demo" sample_request)) = [])
  /\ (PipelineRunStatusResponse.outputs
        (status_response "r1" (created_state "r1" "demo" sample_request)) <> [] ->
      PipelineRunStatusResponse.status
        (status_response "r1" (created_state "r1" "demo" sample_request))
      = PipelineRunStatus.completed).
Proof.
  apply (outputs_empty_until_terminal sample_outputs_dir sample_str_other
           "2025-01-01T00:00:00" working_services "r1" "demo" sample_request ∅).
  - discriminate.
  - vm_compute. constructor.
Defined.

(** ** The registry *)

Lemma stages_complete_snapshots st :
  stages_complete st ->
  PipelineStageSnapshot.stage <$> RunState.stage_snapshots st = PIPELINE_STAGE_ORDER.
Proof.
  intros H. unfold RunState.stage_snapshots, PIPELINE_STAGE_ORDER. cbn [omap list_omap].
  repeat match goal with
  | |- context [RunState.stages st !! ?s] =>
      let snap := fresh "snap" in let E := fresh "E" in
      destruct (H s) as (snap & -> & E)
  end.
  cbn. congruence.
Qed.

Lemma created_complete rid run_name request :
  stages_complete (created_state rid run_name request).
Proof.
  intros stage.
  exists (PipelineStageSnapshot.mk stage "queued" (Some "Awaiting execution") None).
  split; [|done]. by destruct stage; vm_compute.
Qed.

Lemma effect_complete rid c st : stages_complete st -> stages_complete (effect rid c st).
Proof.
  intros H stage. destruct c as [|s status detail payload| |]; cbn; try apply H.
  destruct (decide (s = stage)) as [->|Hne].
  - rewrite lookup_insert_eq. by eexists.
  - rewrite lookup_insert_ne by done. apply H.
Qed.

Lemma run_ops_complete ops :
  forall rid st, _runs (run_ops ops) !! rid = Some st -> stages_complete st.
Proof.
  unfold run_ops. induction ops as [|op ops IH] using rev_ind; intros rid st.
  - cbn. by rewrite lookup_empty.
  - rewrite foldl_app. cbn [foldl]. set (w := foldl run_op (fresh_world ∅) ops) in *.
    destruct op as [rid' name request | rid' c]; cbn [run_op].
    + rewrite create_run_world. cbn [fst _runs].
      destruct (decide (rid' = rid)) as [->|Hne].
      * rewrite lookup_insert_eq. intros [= <-]. apply created_complete.
      * rewrite lookup_insert_ne by done. apply IH.
    + rewrite perform_step. cbn [fst do_step].
      destruct (_runs w !! rid') as [st'|] eqn:Hst'; [|apply IH].
      cbn. destruct (decide (rid' = rid)) as [->|Hne].
      * rewrite lookup_insert_eq. intros [= <-]. by eapply effect_complete, IH.
      * rewrite lookup_insert_ne by done. apply IH.
Qed.

(** C3.  After any sequence of registry operations, starting with an empty
    registry, every run has a snapshot for every declared stage, and the
    stage list of its status answer names the declared stages in order, so
    it has their number as length. *)
Theorem stage_list_always_complete ops rid st :
  _runs (run_ops ops) !! rid = Some st ->
  (forall stage, exists snapshot,
      RunState.stages st !! stage = Some snapshot
      /\ PipelineStageSnapshot.stage snapshot = stage)
  /\ exists response,
      RunStateManager.get_status rid (run_ops ops) = (run_ops ops, inr (Some response))
      /\ PipelineStageSnapshot.stage <$> PipelineRunStatusResponse.stages response
         = PIPELINE_STAGE_ORDER
      /\ length (PipelineRunStatusResponse.stages response) = length PIPELINE_STAGE_ORDER.
Proof.
  intros Hst. pose proof (run_ops_complete ops rid st Hst) as Hc.
  split; [exact Hc|]. exists (status_response rid st).
  split; [by apply get_status_known|].
  pose proof (stages_complete_snapshots st Hc) as Hs. split; [exact Hs|].
  change (PipelineRunStatusResponse.stages (status_response rid st))
    with (RunState.stage_snapshots st).
  by rewrite <- Hs, length_fmap.
Qed.

(** C7.  For a run id the registry does not hold, [get_status] returns
    [None] and [update_stage] returns without raising; neither changes the
    world, so no run state changes and no event is published. *)
Theorem unknown_run_is_tolerated w rid stage status detail payload :
  _runs w !! rid = None ->
  RunStateManager.get_status rid w = (w, inr None)
  /\ RunStateManager.update_stage rid stage status detail payload w = (w, inr tt).
Proof.
  intros H. split; [by apply get_status_unknown|].
  unfold RunStateManager.update_stage, bind, RunStateManager._get_run. by rewrite H.
Qed.

(** C9.  Two successive calls of [get_status] on an existing run return
    the same answer and leave the world as it was. *)
Theorem get_status_twice_same w rid st :
  _runs w !! rid = Some st ->
  exists response,
    (r1 <- RunStateManager.get_status rid ;;
     r2 <- RunStateManager.get_status rid ;;
     ret (r1, r2)) w
    = (w, inr (Some response, Some response)).
Proof.
  intros H. exists (status_response rid st).
  unfold bind. by rewrite !(get_status_known rid w st H).
Qed.

(** C10.  [update_stage] on a known run replaces the snapshot of the
    addressed stage and leaves the snapshots of the other stages, the
    status, the outputs, the run name, the run id and the request as they
    were. *)
Theorem update_stage_frame w rid st stage status detail payload :
  _runs w !! rid = Some st ->
  let w' := (RunStateManager.update_stage rid stage status detail payload w).1 in
  exists st',
    _runs w' !! rid = Some st'
    /\ RunState.stages st' !! stage
       = Some (PipelineStageSnapshot.mk stage status detail payload)
    /\ (forall other, other <> stage ->
          RunState.stages st' !! other = RunState.stages st !! other)
    /\ RunState.status st' = RunState.status st
    /\ RunState.outputs st' = RunState.outputs st
    /\ RunState.run_name st' = RunState.run_name st
    /\ RunState.run_id st' = RunState.run_id st
    /\ RunState.request st' = RunState.request st.
Proof.
  intros H w'. exists (effect rid (UpdateStage stage status detail payload) st).
  subst w'.
  change (RunStateManager.update_stage rid stage status detail payload w)
    with (perform rid (UpdateStage stage status detail payload) w).
  rewrite perform_step.
  cbn [fst]. split; [by apply (do_step_runs rid w (Reg _) st)|]. cbn.
  split; [apply lookup_insert_eq|]. split; [|done].
  intros other Hne. by rewrite lookup_insert_ne.
Qed.

(** *** Instances on the sample registry *)

Lemma stage_list_always_complete_witness :
  (forall stage, exists snapshot,
      RunState.stages (created_state "r1" "demo" sample_request) !! stage = Some snapshot
      /\ PipelineStageSnapshot.stage snapshot = stage)
  /\ exists response,
      RunStateManager.get_status "r1" (run_ops [CreateRun "r1" "demo" sample_request])
      = (run_ops [CreateRun "r1" "demo" sample_request], inr (Some response))
      /\ PipelineStageSnapshot.stage <$> PipelineRunStatusResponse.stages response
         = PIPELINE_STAGE_ORDER
      /\ length (PipelineRunStatusResponse.stages response) = length PIPELINE_STAGE_ORDER.
Proof.
  apply (stage_list_always_complete [CreateRun "r1" "demo" sample_request] "r1"
           (created_state "r1" "demo" sample_request)).
  reflexivity.
Defined.

Lemma unknown_run_is_tolerated_witness :
  RunStateManager.get_status "nope" (fresh_world sample_runs)
  = (fresh_world sample_runs, inr None)
  /\ RunStateManager.update_stage "nope" PipelineStage.ingest "running" None None
       (fresh_world sample_runs)
     = (fresh_world sample_runs, inr tt).
Proof.
  apply (unknown_run_is_tolerated (fresh_world sample_runs) "nope").
  reflexivity.
Defined.

Lemma get_status_twice_same_witness :
  exists response,
    (r1 <- RunStateManager.get_status "r1" ;;
     r2 <- RunStateManager.get_status "r1" ;;
     ret (r1, r2)) (fresh_world sample_runs)
    = (fresh_world sample_runs, inr (Some response, Some response)).
Proof.
  apply (get_status_twice_same (fresh_world sample_runs) "r1"
           (created_state "r1" "demo" sample_request)).
  reflexivity.
Defined.

Lemma update_stage_frame_witness :
  let st := created_state "r1" "demo" sample_request in
  let w' := (RunStateManager.update_stage "r1" PipelineStage.ingest "running" None None
               (fresh_world sample_runs)).1 in
  exists st',
    _runs w' !! "r1" = Some st'
    /\ RunState.stages st' !! PipelineStage.ingest
       = Some (PipelineStageSnapshot.mk PipelineStage.ingest "running" None None)
    /\ (forall other, other <> PipelineStage.ingest ->
          RunState.stages st' !! other = RunState.stages st !! other)
    /\ RunState.status st' = RunState.status st
    /\ RunState.outputs st' = RunState.outputs st
    /\ RunState.run_name st' = RunState.run_name st
    /\ RunState.run_id st' = RunState.run_id st
    /\ RunState.request st' = RunState.request st.
Proof.
  apply (update_stage_frame (fresh_world sample_runs) "r1"
           (created_state "r1" "demo" sample_request)).
  reflexivity.
Defined.

(** ** Sanitization *)

(** C6, as stated, fails: the boolean [fallback_available] of a voiceover
    payload is kept as a boolean, not turned into a string. *)
Lemma sanitize_keeps_booleans :
  ~ coerces_every_other_kind "/srv/app/outputs" (fun _ => "") voiceover_failed_payload.
Proof.
  intros H.
  specialize (H "fallback_available" (VBool false) _ eq_refl eq_refl).
  discriminate H; [done | by intros s].
Qed.

Lemma strip_prefix_spec pre xs rel :
  strip_prefix pre xs = Some rel <-> xs = pre ++ rel.
Proof.
  revert xs. induction pre as [|p pre IH]; intros xs; cbn.
  - split; [by intros [= ->] | by intros ->].
  - destruct xs as [|x xs]; [by split|].
    destruct (decide (p = x)) as [->|Hne].
    + rewrite IH. split; [by intros -> | by intros [= ->]].
    + split; [done | intros [= -> _]; done].
Qed.

Lemma strip_prefix_None pre xs :
  strip_prefix pre xs = None <-> ~ exists rel, xs = pre ++ rel.
Proof.
  destruct (strip_prefix pre xs) as [rel|] eqn:H.
  - apply strip_prefix_spec in H. split; [done|]. intros []. by exists rel.
  - split; [|done]. intros _ [rel Hrel]. apply strip_prefix_spec in Hrel. congruence.
Qed.

Section SanitizeFacts.
Context (outputs_dir : string) (py_str_other : PyValue -> string).

Lemma rewrite_under_root s rel :
  s <> "" ->
  root (Path s) = root (Path outputs_dir) ->
  tail (Path s) = tail (Path outputs_dir) ++ rel ->
  _rewrite_asset_path outputs_dir s
  = "outputs/" +:+ (match rel with [] => "." | _ => String.concat "/" rel end).
Proof.
  intros Hs Hroot Htail. unfold _rewrite_asset_path, _public_asset_path.
  destruct (String.eqb_spec s ""); [done|].
  unfold relative_to. rewrite decide_True by done.
  apply strip_prefix_spec in Htail. rewrite Htail. cbn.
  unfold as_posix. cbn. by destruct rel.
Qed.

Lemma rewrite_elsewhere s :
  s = "" \/ root (Path s) <> root (Path outputs_dir)
  \/ (~ exists rel, tail (Path s) = tail (Path outputs_dir) ++ rel) ->
  _rewrite_asset_path outputs_dir s = s.
Proof.
  intros H. unfold _rewrite_asset_path, _public_asset_path.
  destruct (String.eqb_spec s ""); [done|].
  unfold relative_to. destruct (decide (root (Path s) = root (Path outputs_dir))); [|done].
  destruct H as [?|[?|H]]; [done..|].
  apply strip_prefix_None in H. by rewrite H.
Qed.

Lemma dict_set_fresh key v d :
  key ∉ dict_keys d -> dict_set key v d = d ++ [(key, v)].
Proof.
  induction d as [|[k x] d IH]; cbn; [done|]. intros Hin.
  apply not_elem_of_cons in Hin as [Hne Hin].
  rewrite decide_False by done. by rewrite IH.
Qed.

Lemma sanitize_items_spec payload : forall done,
  NoDup (dict_keys done ++ dict_keys payload) ->
  (forall key value, (key, value) ∈ payload ->
     exists out, sanitize_value outputs_dir py_str_other key value = inr out) ->
  exists outs,
    foldl (sanitize_step outputs_dir py_str_other) (inr done) payload = inr (done ++ outs)
    /\ Forall2 (fun kv kv' =>
                  kv'.1 = kv.1
                  /\ sanitize_value outputs_dir py_str_other kv.1 kv.2 = inr kv'.2)
               payload outs.
Proof.
  induction payload as [|[k v] payload IH]; intros done Hnd Hok.
  - exists []. by rewrite app_nil_r.
  - destruct (Hok k v) as [out Hout]; [by left|].
    cbn [foldl].
    change (sanitize_step outputs_dir py_str_other (inr done) (k, v))
      with (rbind (sanitize_value outputs_dir py_str_other k v)
              (fun v' => ok (dict_set k v' done))).
    rewrite Hout. cbn [rbind]. unfold ok.
    rewrite dict_set_fresh.
    2:{ cbn in Hnd. apply NoDup_app in Hnd as (_ & Hdis & _).
        intros Hin. apply (Hdis k Hin). by left. }
    destruct (IH (done ++ [(k, out)])) as (outs & Hfold & Hall).
    + unfold dict_keys in *. rewrite fmap_app, <- app_assoc. exact Hnd.
    + intros key value Hin. apply Hok. by right.
    + exists ((k, out) :: outs). rewrite Hfold, <- app_assoc. split; [done|].
      by constructor.
Qed.

Lemma sanitized_lookup payload outs key value :
  Forall2 (fun kv kv' =>
             kv'.1 = kv.1
             /\ sanitize_value outputs_dir py_str_other kv.1 kv.2 = inr kv'.2)
          payload outs ->
  dict_lookup key payload = Some value ->
  exists out, dict_lookup key outs = Some out
              /\ sanitize_value outputs_dir py_str_other key value = inr out.
Proof.
  induction 1 as [|[k v] [k' v'] payload outs [Hk Hv] _ IH]; cbn; [done|].
  cbn in Hk, Hv. subst k'. destruct (decide (k = key)) as [->|Hne]; [|done].
  intros [= ->]. by exists v'.
Qed.

Lemma elem_dict_lookup key value payload :
  NoDup (dict_keys payload) -> (key, value) ∈ payload -> dict_lookup key payload = Some value.
Proof.
  induction payload as [|[k v] payload IH]; cbn; [by intros _ ?%elem_of_nil|].
  intros [Hk Hnd]%NoDup_cons [[= -> ->]|Hin]%elem_of_cons.
  - by rewrite decide_True.
  - rewrite decide_False; [by apply IH|].
    intros ->. apply Hk. unfold dict_keys. apply list_elem_of_fmap. by exists (key, value).
Qed.

Lemma sanitize_asset_summary items :
  omap sanitize_asset items = asset_summary <$> dict_entries items.
Proof.
  induction items as [|item items IH]; [done|].
  unfold dict_entries in *. destruct item; cbn; try done. by rewrite IH.
Qed.

Lemma sanitize_each_spec elements outs :
  Forall2 (fun item out => _sanitize_payload outputs_dir py_str_other item = inr out)
          elements outs ->
  (fix each (l : list PyValue) : Result (list PyValue) :=
     match l with
     | [] => ok []
     | item :: rest =>
         rbind (_sanitize_payload outputs_dir py_str_other item) (fun x =>
         rbind (each rest) (fun xs => ok (x :: xs)))
     end) elements = inr outs.
Proof.
  induction 1 as [|item out elements outs Hitem _ IH]; [done|].
  rewrite Hitem. cbn [rbind]. rewrite IH. done.
Qed.

(** C6, amended.  The rule holds for every payload, whatever the stage.
    A dict payload, or a dataclass payload taken as the dict of its fields,
    whose [assets] value, if present, is iterable: sanitization succeeds
    and keeps the keys; the value under [assets] becomes the list of its
    dict entries, each reduced to [id], [local_path] and [license]; under
    any other key, a string that is not empty and lies under the output
    root becomes [outputs/<path-under-root>], any other string is
    unchanged, an integer, float or boolean is unchanged, and a value of
    any other kind becomes its string form.  A list or tuple payload
    becomes the list of its sanitized items, and any other payload is
    returned as it is. *)
Theorem sanitize_payload_rule (payload : PyValue) :
  (forall items,
     payload_items payload = Some items ->
     NoDup (dict_keys items) ->
     (forall value, dict_lookup "assets" items = Some value ->
        exists entries, py_iter value = inr entries) ->
     exists sanitized,
       _sanitize_payload outputs_dir py_str_other payload = inr (VDict sanitized)
       /\ dict_keys sanitized = dict_keys items
       /\ forall key value,
           dict_lookup key items = Some value ->
           exists out,
             dict_lookup key sanitized = Some out
             /\ (key = "assets" ->
                 exists entries,
                   py_iter value = inr entries
                   /\ out = VList (asset_summary <$> dict_entries entries))
             /\ (key <> "assets" ->
                 match value with
                 | VStr s =>
                     (forall rel,
                        s <> "" ->
                        root (Path s) = root (Path outputs_dir) ->
                        tail (Path s) = tail (Path outputs_dir) ++ rel ->
                        out = VStr ("outputs/"
                                    +:+ match rel with
                                        | [] => "."
                                        | _ => String.concat "/" rel
                                        end))
                     /\ (s = "" \/ root (Path s) <> root (Path outputs_dir)
                         \/ (~ exists rel, tail (Path s) = tail (Path outputs_dir) ++ rel) ->
                         out = VStr s)
                 | VInt _ | VFloat _ | VBool _ => out = value
                 | _ => out = VStr (py_str py_str_other value)
                 end))
  /\ (forall elements outs,
        payload = VList elements \/ payload = VTuple elements ->
        Forall2 (fun item out => _sanitize_payload outputs_dir py_str_other item = inr out)
                elements outs ->
        _sanitize_payload outputs_dir py_str_other payload = inr (VList outs))
  /\ (payload_items payload = None ->
      (forall elements, payload <> VList elements /\ payload <> VTuple elements) ->
      _sanitize_payload outputs_dir py_str_other payload = inr payload).
Proof.
  split; [|split].
  - intros items Hitems Hnd Hassets.
    destruct (sanitize_items_spec items []) as (outs & Hfold & Hall); [done| |].
    { intros key value Hin. apply (elem_dict_lookup _ _ _ Hnd) in Hin.
      unfold sanitize_value. destruct (decide (key = "assets")) as [->|Hne].
      - destruct (Hassets _ Hin) as [entries ->]. by eexists.
      - destruct value; by eexists. }
    exists outs. split.
    { assert (Hrun : sanitize_items outputs_dir py_str_other items = inr outs).
      { unfold sanitize_items. change (ok []) with (@inr PyExc PyDict []).
        by rewrite Hfold. }
      destruct payload; try discriminate Hitems; injection Hitems as Hitems;
        cbn [_sanitize_payload]; rewrite Hitems, Hrun; done. }
    split.
    { unfold dict_keys. clear -Hall.
      induction Hall as [|[] [] ? ? [? _]]; cbn in *; congruence. }
    intros key value Hlook.
    destruct (sanitized_lookup items outs key value Hall Hlook) as (out & Hout & Hval).
    exists out. split; [done|]. unfold sanitize_value in Hval. split.
    + intros ->. rewrite decide_True in Hval by done.
      destruct (py_iter value) as [|entries]; [done|]. exists entries. split; [done|].
      cbn in Hval. injection Hval as <-. by rewrite sanitize_asset_summary.
    + intros Hne. rewrite decide_False in Hval by done.
      destruct value; try (by injection Hval as <-).
      injection Hval as <-. split.
      * intros rel H1 H2 H3. by rewrite (rewrite_under_root s rel).
      * intros H. by rewrite rewrite_elsewhere.
  - intros elements outs Hkind Hall.
    apply sanitize_each_spec in Hall.
    destruct Hkind as [-> | ->]; cbn [_sanitize_payload]; by rewrite Hall.
  - intros Hnone Hkind.
    destruct payload; try done.
    + by destruct (Hkind items) as [? _].
    + by destruct (Hkind items) as [_ ?].
Qed.
End SanitizeFacts.

Lemma sanitize_payload_rule_witness :
  (exists sanitized,
      _sanitize_payload sample_outputs_dir sample_str_other (VDict ingest_payload)
      = inr (VDict sanitized)
      /\ dict_keys sanitized = dict_keys ingest_payload)
  /\ (exists sanitized,
        _sanitize_payload sample_outputs_dir sample_str_other sample_narrative
        = inr (VDict sanitized)
        /\ dict_lookup "instagram_hashtags" sanitized
           = Some (VStr (py_str sample_str_other (VList [VStr "#learning"])))).
Proof.
  split.
  - destruct (sanitize_payload_rule sample_outputs_dir sample_str_other
                (VDict ingest_payload)) as [Hrule _].
    destruct (Hrule ingest_payload eq_refl) as (sanitized & H1 & H2 & _).
    + apply (bool_decide_unpack _). vm_compute. exact I.
    + intros value [= <-]. eexists. reflexivity.
    + exists sanitized. split; assumption.
  - destruct (sanitize_payload_rule sample_outputs_dir sample_str_other
                sample_narrative) as [Hrule _].
    destruct (Hrule _ eq_refl) as (sanitized & H1 & _ & H3).
    + apply (bool_decide_unpack _). vm_compute. exact I.
    + intros value [=].
    + exists sanitized. split; [assumption|].
      destruct (H3 "instagram_hashtags" (VList [VStr "#learning"]) eq_refl)
        as (out & Hout & _ & Hrest).
      rewrite Hout. f_equal. apply Hrest. discriminate.
Defined.

(** * Further properties of the code *)

(** ** Coroutines and relations between worlds *)

Section Keeps.
Context (R : World -> World -> Prop) (Hrefl : forall w, R w w)
        (Htrans : forall w1 w2 w3, R w1 w2 -> R w2 w3 -> R w1 w3).

Lemma keeps_ret {A} (x : A) : keeps R (ret x).
Proof using Hrefl. intros w. apply Hrefl. Qed.

Lemma keeps_raise {A} e : keeps R (@raise A e).
Proof using Hrefl. intros w. apply Hrefl. Qed.

Lemma keeps_lift {A} (r : Result A) : keeps R (lift r).
Proof using Hrefl. intros w. apply Hrefl. Qed.

Lemma keeps_bind {A B} (c : M A) (k : A -> M B) :
  keeps R c -> (forall x, keeps R (k x)) -> keeps R (bind c k).
Proof using Htrans.
  intros Hc Hk w. unfold bind. specialize (Hc w).
  destruct (c w) as [w1 [e|x]]; [done|]. cbn in Hc. eapply Htrans; [exact Hc|apply Hk].
Qed.

Lemma keeps_try {A} (c : M A) h :
  keeps R c -> (forall e, keeps R (h e)) -> keeps R (try_except c h).
Proof using Htrans.
  intros Hc Hh w. unfold try_except. specialize (Hc w).
  destruct (c w) as [w1 [e|x]]; [|done]. cbn in Hc. eapply Htrans; [exact Hc|apply Hh].
Qed.
End Keeps.

Lemma registry_untouched_refl w : registry_untouched w w.
Proof. done. Qed.

Lemma registry_untouched_trans w1 w2 w3 :
  registry_untouched w1 w2 -> registry_untouched w2 w3 -> registry_untouched w1 w3.
Proof. intros [H1 H2] [H3 H4]. split; congruence. Qed.

Lemma run_untouched_refl rid w : run_untouched rid w w.
Proof. done. Qed.

Lemma run_untouched_trans rid w1 w2 w3 :
  run_untouched rid w1 w2 -> run_untouched rid w2 w3 -> run_untouched rid w1 w3.
Proof. unfold run_untouched. congruence. Qed.

Lemma perform_other rid rid' c :
  rid <> rid' -> keeps (run_untouched rid') (perform rid c).
Proof.
  intros Hne w. rewrite perform_step. unfold run_untouched. cbn.
  destruct (_runs w !! rid); [|done]. cbn. by rewrite lookup_insert_ne.
Qed.

Lemma to_thread_registry stage o : keeps registry_untouched (to_thread stage o).
Proof. by intros w. Qed.

Lemma to_thread_run rid stage o : keeps (run_untouched rid) (to_thread stage o).
Proof. by intros w. Qed.

Lemma if_run_id_untracked run_id k :
  run_id = None \/ run_id = Some "" -> keeps registry_untouched (if_run_id run_id k).
Proof. intros [->| ->] w; done. Qed.

Lemma if_run_id_other run_id rid' c k :
  run_id <> Some rid' ->
  (forall rid w, k rid w = perform rid c w) ->
  keeps (run_untouched rid') (if_run_id run_id k).
Proof.
  intros Hne Hk w. unfold if_run_id. destruct run_id as [rid|]; [|done].
  destruct (String.eqb rid ""); [done|]. rewrite Hk. apply perform_other. congruence.
Qed.

(** Splitting a goal [keeps R c] along the structure of [c]; [leaf] is
    tried first on every goal. *)
Ltac keeps_steps Hrefl Htrans leaf :=
  repeat first
    [ leaf
    | apply (keeps_ret _ Hrefl)
    | apply (keeps_raise _ Hrefl)
    | apply (keeps_lift _ Hrefl)
    | apply (keeps_bind _ Htrans); [|intros]
    | apply (keeps_try _ Htrans); [|intros]
    | match goal with |- keeps _ (let '(_, _) := ?p in _) => destruct p end ].

Section Untouched.
Context (outputs_dir : string) (py_str_other : PyValue -> string)
        (utcnow_isoformat : string) (services : Services).

Lemma execute_untracked run_id request :
  run_id = None \/ run_id = Some "" ->
  keeps registry_untouched
    (_execute outputs_dir py_str_other utcnow_isoformat services request run_id).
Proof.
  intros Hid. unfold _execute.
  keeps_steps registry_untouched_refl registry_untouched_trans
    ltac:(first [ by apply if_run_id_untracked | apply to_thread_registry ]).
Qed.

Lemma execute_other run_id rid' request :
  run_id <> Some rid' ->
  keeps (run_untouched rid')
    (_execute outputs_dir py_str_other utcnow_isoformat services request run_id).
Proof.
  intros Hid. unfold _execute.
  keeps_steps (run_untouched_refl rid') (run_untouched_trans rid')
    ltac:(first [ apply to_thread_run
                | by eapply (if_run_id_other _ _ (UpdateStage _ _ _ _)) ]).
Qed.

(** X1.  An untracked run, [PipelineRunner.run], leaves the registry as it
    was: no run changes, no event is published and no registry operation
    takes effect. *)
Theorem run_leaves_registry_untouched request w :
  let w' := (run outputs_dir py_str_other utcnow_isoformat services request w).1 in
  _runs w' = _runs w /\ history w' = history w.
Proof. apply (execute_untracked None request). by left. Qed.

(** X2.  A tracked run of [rid] leaves every other run of the registry as
    it was: state, stage snapshots, outputs and queue. *)
Theorem tracked_run_leaves_other_runs rid rid' request w :
  rid <> rid' ->
  _runs (execute_with_tracking outputs_dir py_str_other utcnow_isoformat services
           rid request w).1 !! rid'
  = _runs w !! rid'.
Proof.
  intros Hne. revert w.
  change (keeps (run_untouched rid')
            (execute_with_tracking outputs_dir py_str_other utcnow_isoformat services
               rid request)).
  unfold execute_with_tracking.
  apply (keeps_try _ (run_untouched_trans rid')).
  - apply (keeps_bind _ (run_untouched_trans rid')).
    { by apply (perform_other rid rid' MarkRunStarted). }
    intros _. apply (keeps_bind _ (run_untouched_trans rid')).
    { apply execute_other. congruence. }
    intros response. by apply (perform_other rid rid' (MarkRunCompleted response)).
  - intros exc. by apply (perform_other rid rid' (MarkRunFailed (exc_str exc))).
Qed.
End Untouched.

(** ** Tracked and untracked runs compared *)

Lemma same_ret {A} (x : A) : same_outcome (ret x) (ret x).
Proof. intros w1 w2. split; [done|]. exists []. by rewrite !app_nil_r. Qed.

Lemma same_raise {A} e : same_outcome (@raise A e) (raise e).
Proof. intros w1 w2. split; [done|]. exists []. by rewrite !app_nil_r. Qed.

Lemma same_lift {A} (r : Result A) : same_outcome (lift r) (lift r).
Proof. intros w1 w2. split; [done|]. exists []. by rewrite !app_nil_r. Qed.

Lemma same_to_thread stage o : same_outcome (to_thread stage o) (to_thread stage o).
Proof. intros w1 w2. split; [done|]. by exists [(stage, o)]. Qed.

Lemma same_bind {A B} (c1 c2 : M A) (k1 k2 : A -> M B) :
  same_outcome c1 c2 -> (forall x, same_outcome (k1 x) (k2 x)) ->
  same_outcome (bind c1 k1) (bind c2 k2).
Proof.
  intros Hc Hk w1 w2. unfold bind. destruct (Hc w1 w2) as (Hres & calls & H1 & H2).
  destruct (c1 w1) as [w1' r1], (c2 w2) as [w2' r2]. cbn in *. subst r2.
  destruct r1 as [e|x]; cbn; [split; [done|]; by exists calls|].
  destruct (Hk x w1' w2') as (Hres' & calls' & H1' & H2').
  split; [done|]. exists (calls ++ calls'). rewrite H1', H2', H1, H2.
  by rewrite !app_assoc.
Qed.

Lemma same_try {A} (c1 c2 : M A) (h1 h2 : PyExc -> M A) :
  same_outcome c1 c2 -> (forall e, same_outcome (h1 e) (h2 e)) ->
  same_outcome (try_except c1 h1) (try_except c2 h2).
Proof.
  intros Hc Hh w1 w2. unfold try_except. destruct (Hc w1 w2) as (Hres & calls & H1 & H2).
  destruct (c1 w1) as [w1' r1], (c2 w2) as [w2' r2]. cbn in *. subst r2.
  destruct r1 as [e|x]; cbn; [|split; [done|]; by exists calls].
  destruct (Hh e w1' w2') as (Hres' & calls' & H1' & H2').
  split; [done|]. exists (calls ++ calls'). rewrite H1', H2', H1, H2.
  by rewrite !app_assoc.
Qed.

Lemma perform_silent rid c w :
  (perform rid c w).2 = inr tt /\ executed (perform rid c w).1 = executed w.
Proof.
  rewrite perform_step. split; [done|]. cbn. by destruct (_runs w !! rid).
Qed.

Lemma same_if_run_id id1 id2 stage status detail payload :
  same_outcome
    (if_run_id id1 (fun rid => RunStateManager.update_stage rid stage status detail payload))
    (if_run_id id2 (fun rid => RunStateManager.update_stage rid stage status detail payload)).
Proof.
  assert (H : forall id w,
    (if_run_id id (fun rid =>
       RunStateManager.update_stage rid stage status detail payload) w).2 = inr tt
    /\ executed (if_run_id id (fun rid =>
         RunStateManager.update_stage rid stage status detail payload) w).1 = executed w).
  { intros [rid|] w; cbn; [|done]. destruct (String.eqb rid ""); [done|].
    apply (perform_silent rid (UpdateStage stage status detail payload)). }
  intros w1 w2. destruct (H id1 w1) as [-> ->], (H id2 w2) as [-> ->].
  split; [done|]. exists []. by rewrite !app_nil_r.
Qed.

Ltac same_steps :=
  repeat first
    [ apply same_if_run_id
    | apply same_to_thread
    | apply same_ret
    | apply same_raise
    | apply same_lift
    | apply same_bind; [|intros]
    | apply same_try; [|intros]
    | match goal with |- same_outcome (let '(_, _) := ?p in _) _ => destruct p end ].

(** X3.  Tracking changes neither what [_execute] returns or raises nor the
    executors it calls: with any run id or none, from any world, the result
    is the same and the same executor calls are logged. *)
Theorem tracking_does_not_change_the_run
    outputs_dir py_str_other utcnow_isoformat services request id1 id2 w1 w2 :
  (_execute outputs_dir py_str_other utcnow_isoformat services request id1 w1).2
  = (_execute outputs_dir py_str_other utcnow_isoformat services request id2 w2).2
  /\ exists calls,
      executed (_execute outputs_dir py_str_other utcnow_isoformat services request
                  id1 w1).1 = executed w1 ++ calls
      /\ executed (_execute outputs_dir py_str_other utcnow_isoformat services request
                     id2 w2).1 = executed w2 ++ calls.
Proof.
  revert w1 w2.
  change (same_outcome
            (_execute outputs_dir py_str_other utcnow_isoformat services request id1)
            (_execute outputs_dir py_str_other utcnow_isoformat services request id2)).
  unfold _execute. same_steps.
Qed.

(** ** What a returned response holds *)

Lemma bind_inr {A B} (c : M A) (k : A -> M B) w w' y :
  bind c k w = (w', inr y) ->
  exists x w1, c w = (w1, inr x) /\ k x w1 = (w', inr y).
Proof.
  unfold bind. destruct (c w) as [w1 [e|x]]; [done|]. intros H. by exists x, w1.
Qed.

Lemma if_run_id_executed run_id stage status detail payload w :
  executed (if_run_id run_id (fun rid =>
              RunStateManager.update_stage rid stage status detail payload) w).1
  = executed w.
Proof.
  destruct run_id as [rid|]; cbn; [|done]. destruct (String.eqb rid ""); [done|].
  apply (perform_silent rid (UpdateStage stage status detail payload)).
Qed.

Lemma run_stage_inr outputs_dir py_str_other stage snapshots executor detail_builder
    run_id w w' result snapshots' :
  _run_stage outputs_dir py_str_other stage snapshots executor detail_builder run_id w
  = (w', inr (result, snapshots')) ->
  executor = inr result
  /\ executed w' = executed w ++ [(stage, inr result)]
  /\ exists detail payload,
      snapshots'
      = snapshots ++ [PipelineStageSnapshot.mk stage "done" (Some detail) payload].
Proof.
  unfold _run_stage. intros H.
  apply bind_inr in H as ([] & w1 & H1 & H).
  assert (Hw1 : executed w1 = executed w).
  { rewrite <- (if_run_id_executed run_id stage "running" None None w). by rewrite H1. }
  clear H1. unfold try_except in H.
  match type of H with
  | match ?body w1 with _ => _ end = _ => destruct (body w1) as [w2 [e|x]] eqn:Hbody
  end.
  { unfold bind in H.
    destruct (if_run_id _ _ w2) as [w3 [?|?]]; discriminate H. }
  injection H as <- ->.
  apply bind_inr in Hbody as (r & w3 & Hthread & Hbody).
  unfold to_thread in Hthread. injection Hthread as <- Hex.
  apply bind_inr in Hbody as (detail & w4 & Hdetail & Hbody).
  unfold lift in Hdetail. injection Hdetail as <- Hdetail.
  apply bind_inr in Hbody as (payload & w5 & Hpayload & Hbody).
  unfold lift in Hpayload. injection Hpayload as <- Hpayload.
  apply bind_inr in Hbody as ([] & w6 & Hupd & Hbody).
  unfold ret in Hbody. injection Hbody as <- <- <-.
  split; [done|]. split; [|by eauto].
  apply (f_equal (fun p => executed p.1)) in Hupd.
  rewrite if_run_id_executed in Hupd. cbn in Hupd. by rewrite <- Hupd, Hw1, Hex.
Qed.

Section Response.
Context (outputs_dir : string) (py_str_other : PyValue -> string)
        (utcnow_isoformat : string) (services : Services).

(** X4.  A response [_execute] returns carries the run name of the request,
    one snapshot per declared stage, in declared order and all in status
    [done], and outputs under the keys [instagram], [tiktok], [metadata]
    and [analytics]; the six executors were called in order and each
    returned. *)
Theorem returned_response_is_complete request run_id w w' response :
  _execute outputs_dir py_str_other utcnow_isoformat services request run_id w
  = (w', inr response) ->
  PipelineRunResponse.run_name response = PipelineRunRequest.run_name request
  /\ PipelineStageSnapshot.stage <$> PipelineRunResponse.stages response
     = PIPELINE_STAGE_ORDER
  /\ Forall (fun s => PipelineStageSnapshot.status s = "done")
            (PipelineRunResponse.stages response)
  /\ dict_keys (PipelineRunResponse.outputs response)
     = ["instagram"; "tiktok"; "metadata"; "analytics"]
  /\ exists calls,
      executed w' = executed w ++ calls
      /\ calls.*1 = take 6 PIPELINE_STAGE_ORDER
      /\ Forall (fun c => exists result, c.2 = inr result) calls.
Proof.
  unfold _execute. intros H.
  repeat match type of H with
  | bind (_run_stage _ _ _ _ _ _ _) _ _ = _ =>
      let Hs := fresh "Hs" in let Hc := fresh "Hc" in
      apply bind_inr in H as ([? ?] & ? & Hs & H);
      apply run_stage_inr in Hs as (_ & Hc & ? & ? & ->); cbn beta iota in H
  end.
  apply bind_inr in H as ([] & w7 & Hupd & H).
  apply (f_equal (fun p => executed p.1)) in Hupd.
  rewrite if_run_id_executed in Hupd. cbn in Hupd.
  apply bind_inr in H as (instagram & ? & [= <- _] & H).
  apply bind_inr in H as (tiktok & ? & [= <- _] & H).
  apply bind_inr in H as (analytics & ? & [= <- _] & H).
  injection H as <- <-. cbn.
  split; [done|]. split; [done|]. split; [by repeat constructor|]. split; [done|].
  eexists. split.
  { rewrite <- Hupd. clear Hupd.
    repeat match goal with Hc : executed _ = _ |- _ => rewrite Hc; clear Hc end.
    rewrite <- !app_assoc. reflexivity. }
  cbn. split; [done|]. repeat constructor; by eexists.
Qed.
End Response.

(** ** How a tracked run ends *)

Lemma run_calls_snoc rid st cs c :
  run_calls rid st (cs ++ [c]) = effect rid c (run_calls rid st cs).
Proof. unfold run_calls. by rewrite foldl_app. Qed.

Lemma registry_calls_tracked steps res :
  registry_calls (tracked_steps steps res)
  = (MarkRunStarted :: registry_calls steps) ++ [closing_call res].
Proof.
  unfold tracked_steps, registry_calls. cbn. by rewrite omap_app.
Qed.

Lemma shape_keeps_outputs rid st steps res :
  execute_shape steps res ->
  RunState.outputs (run_calls rid st (MarkRunStarted :: registry_calls steps))
  = RunState.outputs st.
Proof. intros H. shape_cases H; reflexivity. Qed.

Section Ending.
Context (outputs_dir : string) (py_str_other : PyValue -> string)
        (utcnow_isoformat : string) (services : Services).

(** X5.  [execute_with_tracking] never raises, and the run it drives ends
    as [_execute] ended.  If [_execute] returned a response, the status is
    [completed], the outputs are the outputs of the response and the
    channel ends with the [run], [complete] and sentinel items.  If it
    raised, the status is [error], the outputs are as before and the
    channel ends with the [run] item, the [error] event carrying the text
    of the exception, and the sentinel. *)
Theorem tracked_run_ends_as_execute_ended rid request w st :
  rid <> "" -> _runs w !! rid = Some st ->
  let r := execute_with_tracking outputs_dir py_str_other utcnow_isoformat services
             rid request w in
  r.2 = inr tt
  /\ exists st' before,
      _runs r.1 !! rid = Some st'
      /\ match (_execute outputs_dir py_str_other utcnow_isoformat services request
                  (Some rid) w).2 with
         | inr response =>
             RunState.status st' = PipelineRunStatus.completed
             /\ RunState.outputs st' = PipelineRunResponse.outputs response
             /\ RunState.queue st'
                = before ++ [Some (EvRun rid "completed");
                             Some (EvComplete rid response); None]
         | inl exc =>
             RunState.status st' = PipelineRunStatus.error
             /\ RunState.outputs st' = RunState.outputs st
             /\ RunState.queue st'
                = before ++ [Some (EvRun rid "error");
                             Some (EvError rid (exc_str exc)); None]
         end.
Proof.
  intros Hne Hst r.
  destruct (tracked_runs outputs_dir py_str_other utcnow_isoformat services rid request Hne)
    as (steps & res & Hshape & Hexec & Hrun).
  assert (Hr : r = (do_steps rid w (tracked_steps steps res), inr tt)) by apply Hrun.
  clearbody r. subst r. rewrite Hexec. cbn [fst snd]. split; [done|].
  eexists _, (RunState.queue (run_calls rid st (MarkRunStarted :: registry_calls steps))).
  split.
  { erewrite do_steps_runs by done.
    by rewrite registry_calls_tracked, run_calls_snoc. }
  pose proof (shape_keeps_outputs rid st steps res Hshape) as Hout.
  destruct res as [exc|response]; cbn; by rewrite ?Hout.
Qed.
End Ending.

(** The traces of [_execute], one goal for each: the stage that failed, or
    none. *)
Ltac shape_leaves H :=
  let pre := fresh "pre" in
  let Hpre := fresh "Hpre" in
  let Hlen := fresh "Hlen" in
  let Hexc := fresh "Hexc" in
  let Hout := fresh "Hout" in
  inversion H as [pre ? ? ? Hpre Hlen Hexc | pre ? ? Hpre Hout]; subst; clear H;
  split_pre pre Hpre.

Ltac failed_at n :=
  exists n; split; [lia|]; split; [vm_compute; reflexivity | reflexivity].

Section FinalStages.
Context (outputs_dir : string) (py_str_other : PyValue -> string)
        (utcnow_isoformat : string) (services : Services).

(** X6.  When a created run was driven with tracking, the stage list of
    its status reads: all seven stages [done]; or the stages before the one
    that failed [done], that one [error], and every later stage, the
    [completed] marker included, still [queued], the run being in status
    [error]. *)
Theorem final_stage_statuses rid run_name request runs :
  rid <> "" ->
  let w1 := (RunStateManager.create_run rid run_name request (fresh_world runs)).1 in
  let w' := (execute_with_tracking outputs_dir py_str_other utcnow_isoformat
               services rid request w1).1 in
  exists st',
    _runs w' !! rid = Some st'
    /\ let statuses := PipelineStageSnapshot.status <$> RunState.stage_snapshots st' in
       statuses = replicate 7 "done"
       \/ exists n,
           n < 6
           /\ statuses = replicate n "done" ++ ["error"] ++ replicate (6 - n) "queued"
           /\ RunState.status st' = PipelineRunStatus.error.
Proof.
  intros Hne w1 w'.
  destruct (created_run_world outputs_dir py_str_other utcnow_isoformat services
              rid run_name request runs Hne)
    as (steps & res & Hshape & Hruns & _).
  fold w1 w' in Hruns. rewrite Hruns. clear Hruns w1 w'.
  eexists. split; [reflexivity|]. cbn zeta.
  shape_leaves Hshape; try destruct res.
  all: first
    [ left; vm_compute; reflexivity
    | right;
      first [ failed_at 0 | failed_at 1 | failed_at 2
            | failed_at 3 | failed_at 4 | failed_at 5 ] ].
Qed.
End FinalStages.

(** ** The channel and the state *)

Lemma created_mirrors rid run_name request :
  channel_mirrors_state (created_state rid run_name request).
Proof. repeat split; by vm_compute. Qed.

Lemma effect_mirrors rid c st :
  channel_mirrors_state st -> channel_mirrors_state (effect rid c st).
Proof.
  intros (Hs & Hr & Ho). unfold channel_mirrors_state, replay_stages, replay_status,
    replay_outputs in *. cbn [effect RunState.queue RunState.stages RunState.status
    RunState.outputs]. rewrite !foldl_app, Hs, Hr, Ho. by destruct c.
Qed.

(** X7.  After any sequence of registry operations, starting with an empty
    registry, the channel of every run tells its state: a subscriber that
    starts from the [init] event and applies each [stage], [run] and
    [complete] event holds the stage snapshots, the status and the outputs
    of the run state. *)
Theorem channel_replay_gives_state ops rid st :
  _runs (run_ops ops) !! rid = Some st ->
  replay_stages (RunState.queue st) = RunState.stages st
  /\ replay_status (RunState.queue st) = PipelineRunStatus.value (RunState.status st)
  /\ replay_outputs (RunState.queue st) = RunState.outputs st.
Proof.
  revert rid st. unfold run_ops.
  induction ops as [|op ops IH] using rev_ind; intros rid st.
  - cbn. by rewrite lookup_empty.
  - rewrite foldl_app. cbn [foldl]. set (w := foldl run_op (fresh_world ∅) ops) in *.
    destruct op as [rid' name request | rid' c]; cbn [run_op].
    + rewrite create_run_world. cbn [fst _runs].
      destruct (decide (rid' = rid)) as [->|Hne].
      * rewrite lookup_insert_eq. intros [= <-]. apply created_mirrors.
      * rewrite lookup_insert_ne by done. apply IH.
    + rewrite perform_step. cbn [fst do_step].
      destruct (_runs w !! rid') as [st'|] eqn:Hst'; [|apply IH].
      cbn. destruct (decide (rid' = rid)) as [->|Hne].
      * rewrite lookup_insert_eq. intros [= <-]. by eapply effect_mirrors, IH.
      * rewrite lookup_insert_ne by done. apply IH.
Qed.

(** X8.  Right after [create_run], whatever the registry held, the status
    of the new run is [queued] with empty outputs, its stage list holds the
    seven stages in order, each [queued] with detail [Awaiting execution]
    and no payload, and its channel holds one item, the [init] event with
    that same stage list. *)
Theorem created_run_is_queued rid run_name request w :
  let w1 := (RunStateManager.create_run rid run_name request w).1 in
  let stages :=
    (fun stage => PipelineStageSnapshot.mk stage "queued" (Some "Awaiting execution") None)
      <$> PIPELINE_STAGE_ORDER in
  RunStateManager.get_status rid w1
  = (w1, inr (Some (PipelineRunStatusResponse.mk rid run_name PipelineRunStatus.queued
                      stages [])))
  /\ RunStateManager.get_queue rid w1
     = (w1, inr (Some [Some (EvInit rid run_name stages)])).
Proof.
  cbn zeta. rewrite create_run_world. cbn [fst].
  set (w1 := mkWorld _ _ _).
  assert (Hst : _runs w1 !! rid = Some (created_state rid run_name request))
    by apply lookup_insert_eq.
  split.
  - by rewrite (get_status_known rid w1 _ Hst).
  - unfold RunStateManager.get_queue. by rewrite Hst.
Qed.

(** ** Runs the registry does not hold *)

Lemma untouched_when_unknown_refl rid w : untouched_when_unknown rid w w.
Proof. by intros _. Qed.

Lemma untouched_when_unknown_trans rid w1 w2 w3 :
  untouched_when_unknown rid w1 w2 -> untouched_when_unknown rid w2 w3 ->
  untouched_when_unknown rid w1 w3.
Proof.
  intros H12 H23 Hnone. specialize (H12 Hnone). destruct H12 as [Hr Hh].
  destruct H23 as [Hr' Hh']; [by rewrite Hr|]. split; congruence.
Qed.

Lemma perform_unknown rid c : keeps (untouched_when_unknown rid) (perform rid c).
Proof. intros w Hnone. rewrite perform_step. cbn. by rewrite Hnone. Qed.

Lemma to_thread_unknown rid stage o :
  keeps (untouched_when_unknown rid) (to_thread stage o).
Proof. by intros w _. Qed.

Lemma if_run_id_unknown rid c k :
  (forall r w, k r w = perform r c w) ->
  keeps (untouched_when_unknown rid) (if_run_id (Some rid) k).
Proof.
  intros Hk w. unfold if_run_id. destruct (String.eqb rid ""); [by intros _|].
  rewrite Hk. apply perform_unknown.
Qed.

Section Unknown.
Context (outputs_dir : string) (py_str_other : PyValue -> string)
        (utcnow_isoformat : string) (services : Services).

Lemma execute_unknown rid request :
  keeps (untouched_when_unknown rid)
    (_execute outputs_dir py_str_other utcnow_isoformat services request (Some rid)).
Proof.
  unfold _execute.
  keeps_steps (untouched_when_unknown_refl rid) (untouched_when_unknown_trans rid)
    ltac:(first [ apply to_thread_unknown
                | by eapply (if_run_id_unknown _ (UpdateStage _ _ _ _)) ]).
Qed.

Lemma execute_same_outcome request id1 id2 :
  same_outcome
    (_execute outputs_dir py_str_other utcnow_isoformat services request id1)
    (_execute outputs_dir py_str_other utcnow_isoformat services request id2).
Proof. unfold _execute. same_steps. Qed.

Lemma if_run_id_returns run_id stage status detail payload w :
  exists w', if_run_id run_id (fun rid =>
               RunStateManager.update_stage rid stage status detail payload) w = (w', inr tt)
             /\ executed w' = executed w.
Proof.
  pose proof (if_run_id_executed run_id stage status detail payload w) as Hex.
  destruct (if_run_id run_id _ w) as [w' res] eqn:Hrun. exists w'.
  assert (Hres : res = inr tt).
  { destruct run_id as [rid|]; cbn in Hrun; [|by injection Hrun as <- <-].
    destruct (String.eqb rid ""); [by injection Hrun as <- <-|].
    pose proof (perform_silent rid (UpdateStage stage status detail payload) w) as [Hres _].
    change (perform rid (UpdateStage stage status detail payload) w)
      with (RunStateManager.update_stage rid stage status detail payload w) in Hres.
    by rewrite Hrun in Hres. }
  by subst res.
Qed.

Lemma run_stage_executed stage snapshots executor detail_builder run_id w :
  executed (_run_stage outputs_dir py_str_other stage snapshots executor detail_builder
              run_id w).1
  = executed w ++ [(stage, executor)].
Proof.
  unfold _run_stage, bind at 1.
  destruct (if_run_id_returns run_id stage "running" None None w) as (w1 & -> & <-).
  assert (Hfail : forall e w2,
    executed ((if_run_id run_id (fun rid =>
                 RunStateManager.update_stage rid stage "error" (Some (exc_str e)) None) ;;
               @raise (PyValue * list PipelineStageSnapshot.t)
                 (Exc "RuntimeError" ("Stage " +:+ PipelineStage.value stage +:+ " failed")
                    (Some e))) w2).1 = executed w2).
  { intros e w2. unfold bind.
    by destruct (if_run_id_returns run_id stage "error" (Some (exc_str e)) None w2)
      as (w3 & -> & <-). }
  unfold try_except, bind at 1, to_thread.
  destruct executor as [e|result]; [by rewrite Hfail|].
  unfold bind at 1, lift.
  destruct (detail_builder result) as [e|detail]; [by rewrite Hfail|].
  unfold bind at 1.
  destruct (rbind (_sanitize_payload outputs_dir py_str_other result) validate_payload)
    as [e|payload]; [by rewrite Hfail|].
  unfold bind at 1.
  match goal with
  | |- context [if_run_id run_id ?k ?w0] =>
      destruct (if_run_id_returns run_id stage "done" (Some detail) payload w0)
        as (w2 & Hrun & Hw2);
      change (if_run_id run_id k w0) with
        (if_run_id run_id (fun rid =>
           RunStateManager.update_stage rid stage "done" (Some detail) payload) w0);
      rewrite Hrun
  end.
  exact Hw2.
Qed.

Lemma execute_calls_ingest_first request run_id w :
  exists calls,
    executed (_execute outputs_dir py_str_other utcnow_isoformat services request
                run_id w).1
    = executed w
      ++ (PipelineStage.ingest,
          prepare_assets services (PipelineRunRequest.stock_keywords request)) :: calls.
Proof.
  unfold _execute.
  match goal with
  | |- context [bind ?c ?k w] =>
      assert (Hk : forall x, same_outcome (k x) (k x)) by (intros; same_steps);
      pose proof (run_stage_executed PipelineStage.ingest []
                    (prepare_assets services (PipelineRunRequest.stock_keywords request))
                    _format_ingest_detail run_id w) as Hc;
      unfold bind at 1; destruct (c w) as [w1 [e|x]]; cbn [fst] in *
  end.
  - exists []. exact Hc.
  - destruct (Hk x w1 w1) as (_ & calls & Hcalls & _). exists calls.
    rewrite Hcalls, Hc, <- app_assoc. done.
Qed.

(** X9.  With no run under [run_id], the registry operations
    [mark_run_started], [mark_run_completed] and [mark_run_failed] return
    without effect, and so does a whole tracked run: it never raises,
    publishes nothing and leaves the registry as it was.  It still runs the
    stages: the executors it calls, with their outcomes, are those of an
    untracked run, beginning with the ingest executor. *)
Theorem tracked_run_of_unknown_id rid request response message w :
  _runs w !! rid = None ->
  RunStateManager.mark_run_started rid w = (w, inr tt)
  /\ RunStateManager.mark_run_completed rid response w = (w, inr tt)
  /\ RunStateManager.mark_run_failed rid message w = (w, inr tt)
  /\ let r := execute_with_tracking outputs_dir py_str_other utcnow_isoformat services
                rid request w in
     r.2 = inr tt /\ _runs r.1 = _runs w /\ history r.1 = history w
     /\ executed r.1
        = executed (run outputs_dir py_str_other utcnow_isoformat services request w).1
     /\ exists calls,
         executed r.1
         = executed w
           ++ (PipelineStage.ingest,
               prepare_assets services (PipelineRunRequest.stock_keywords request))
              :: calls.
Proof.
  intros Hnone.
  assert (Hperform : forall c w0, _runs w0 !! rid = None -> perform rid c w0 = (w0, inr tt)).
  { intros c w0 H0. rewrite perform_step. cbn. by rewrite H0. }
  split; [apply (Hperform MarkRunStarted w Hnone)|].
  split; [apply (Hperform (MarkRunCompleted response) w Hnone)|].
  split; [apply (Hperform (MarkRunFailed message) w Hnone)|].
  cbn zeta.
  assert (Hcalls :
    executed (execute_with_tracking outputs_dir py_str_other utcnow_isoformat services
                rid request w).1
    = executed (_execute outputs_dir py_str_other utcnow_isoformat services request
                  (Some rid) w).1).
  { unfold execute_with_tracking, try_except, bind.
    change (RunStateManager.mark_run_started rid w) with (perform rid MarkRunStarted w).
    rewrite (Hperform MarkRunStarted w Hnone).
    destruct (_execute outputs_dir py_str_other utcnow_isoformat services request
                (Some rid) w) as [w2 [e|resp]]; cbn [fst].
    - apply (perform_silent rid (MarkRunFailed (exc_str e)) w2).
    - change (RunStateManager.mark_run_completed rid resp w2)
        with (perform rid (MarkRunCompleted resp) w2).
      destruct (perform_silent rid (MarkRunCompleted resp) w2) as [Hres Hexec].
      destruct (perform rid (MarkRunCompleted resp) w2) as [w3 [e|[]]];
        cbn [fst snd] in *; [discriminate Hres | exact Hexec]. }
  assert (Hkeep : registry_untouched w
            (execute_with_tracking outputs_dir py_str_other utcnow_isoformat services
               rid request w).1).
  { clear Hcalls. revert Hnone.
    change (untouched_when_unknown rid w
              (execute_with_tracking outputs_dir py_str_other utcnow_isoformat services
                 rid request w).1).
    revert w.
    change (keeps (untouched_when_unknown rid)
              (execute_with_tracking outputs_dir py_str_other utcnow_isoformat services
                 rid request)).
    unfold execute_with_tracking.
    apply (keeps_try _ (untouched_when_unknown_trans rid)).
    + apply (keeps_bind _ (untouched_when_unknown_trans rid)).
      { apply (perform_unknown rid MarkRunStarted). }
      intros _. apply (keeps_bind _ (untouched_when_unknown_trans rid)).
      { apply execute_unknown. }
      intros resp. apply (perform_unknown rid (MarkRunCompleted resp)).
    + intros exc. apply (perform_unknown rid (MarkRunFailed (exc_str exc))). }
  destruct Hkeep as [Hruns Hhistory].
  split; [|split; [exact Hruns|split; [exact Hhistory|split]]].
  - unfold execute_with_tracking, try_except.
    match goal with |- (match ?b w with _ => _ end).2 = _ => destruct (b w) as [w2 [e|[]]] end;
      [|done].
    change (RunStateManager.mark_run_failed rid (exc_str e) w2)
      with (perform rid (MarkRunFailed (exc_str e)) w2).
    by rewrite perform_step.
  - rewrite Hcalls. unfold run.
    destruct (execute_same_outcome request (Some rid) None w w) as (_ & calls & H1 & H2).
    by rewrite H1, H2.
  - rewrite Hcalls. apply execute_calls_ingest_first.
Qed.
End Unknown.

(** ** The stream and status handlers *)

Lemma event_generator_closed evs rest :
  event_generator ((Some <$> evs) ++ None :: rest) = (evs, rest, StreamClosed).
Proof. induction evs as [|ev evs IH]; cbn; [done|]. by rewrite IH. Qed.

Lemma event_generator_waiting evs :
  event_generator (Some <$> evs) = (evs, [], StreamWaiting).
Proof. induction evs as [|ev evs IH]; cbn; [done|]. by rewrite IH. Qed.

(** Every item taken is yielded or is the sentinel, in queue order. *)
Lemma event_generator_split q :
  let '(yielded, remaining, e) := event_generator q in
  q = (Some <$> yielded)
      ++ match e with StreamClosed => None :: remaining | StreamWaiting => [] end
  /\ (e = StreamWaiting -> remaining = []).
Proof.
  induction q as [|[ev|] q IH]; cbn; [done| |done].
  destruct (event_generator q) as [[yielded remaining] e]. cbn.
  destruct IH as [-> IH]. done.
Qed.

Lemma stream_known rid w st :
  _runs w !! rid = Some st ->
  stream_pipeline_run rid w
  = ((take_from_queue rid (event_generator (RunState.queue st)).1.2 w).1,
     inr ((event_generator (RunState.queue st)).1.1, (event_generator (RunState.queue st)).2)).
Proof.
  intros H. unfold stream_pipeline_run, bind, RunStateManager.get_queue. rewrite H. cbn.
  destruct (event_generator (RunState.queue st)) as [[yielded remaining] e]. cbn.
  unfold take_from_queue. by rewrite H.
Qed.

(** X10.  The handlers answer 404 exactly for the runs the registry does
    not hold, and then change nothing. *)
Theorem handlers_raise_404_iff_unknown rid w :
  (_runs w !! rid = None <->
   get_pipeline_run_status rid w = (w, inl http_not_found))
  /\ (_runs w !! rid = None <->
      stream_pipeline_run rid w = (w, inl http_not_found)).
Proof.
  split; split.
  - intros H. unfold get_pipeline_run_status, bind. by rewrite (get_status_unknown rid w H).
  - destruct (_runs w !! rid) as [st|] eqn:H; [|done].
    unfold get_pipeline_run_status, bind. by rewrite (get_status_known rid w st H).
  - intros H. unfold stream_pipeline_run, bind, RunStateManager.get_queue. by rewrite H.
  - destruct (_runs w !! rid) as [st|] eqn:H; [|done].
    by rewrite (stream_known rid w st H).
Qed.

(** X11.  Reading the stream of a run changes no answer of the status
    query, for that run or any other: it only takes items from the queue. *)
Theorem stream_keeps_status rid rid' w :
  (RunStateManager.get_status rid' (stream_pipeline_run rid w).1).2
  = (RunStateManager.get_status rid' w).2.
Proof.
  destruct (_runs w !! rid) as [st|] eqn:H.
  - rewrite (stream_known rid w st H). cbn [fst]. unfold take_from_queue. rewrite H. cbn [fst].
    set (w' := mkWorld _ _ _).
    destruct (decide (rid = rid')) as [<-|Hne].
    + rewrite (get_status_known rid w st H).
      erewrite (get_status_known rid w'); [|apply lookup_insert_eq]. done.
    + subst w'. unfold RunStateManager.get_status, bind, RunStateManager._get_run.
      cbn [_runs]. rewrite lookup_insert_ne by done. by destruct (_runs w !! rid').
  - unfold stream_pipeline_run, bind, RunStateManager.get_queue. by rewrite H.
Qed.

(** X12.  On a channel that holds events followed by the sentinel, a first
    reader of the stream receives every event in order and its stream
    closes; the queue is then empty, so a second reader receives nothing
    and waits. *)
Theorem second_reader_receives_nothing rid w st evs :
  _runs w !! rid = Some st ->
  RunState.queue st = (Some <$> evs) ++ [None] ->
  exists w',
    (first <- stream_pipeline_run rid ;;
     second <- stream_pipeline_run rid ;;
     ret (first, second)) w
    = (w', inr ((evs, StreamClosed), ([], StreamWaiting)))
    /\ RunStateManager.get_queue rid w' = (w', inr (Some [])).
Proof.
  intros H Hq. unfold bind at 1. rewrite (stream_known rid w st H), Hq.
  rewrite event_generator_closed. cbn [fst snd]. unfold take_from_queue. rewrite H.
  cbn [fst]. set (w1 := mkWorld _ _ _).
  assert (H1 : _runs w1 !! rid = Some
            (RunState.mk (RunState.run_id st) (RunState.run_name st) (RunState.request st)
               (RunState.status st) (RunState.stages st) (RunState.outputs st) []))
    by apply lookup_insert_eq.
  unfold bind. rewrite (stream_known rid w1 _ H1). cbn.
  unfold take_from_queue. rewrite H1. cbn. eexists. split; [reflexivity|].
  unfold RunStateManager.get_queue. cbn. by rewrite lookup_insert_eq.
Qed.

Lemma tracked_events rid steps res :
  execute_shape steps res ->
  exists evs terminal,
    concat (events rid <$> registry_calls (tracked_steps steps res))
    = (Some <$> (evs ++ [terminal])) ++ [None]
    /\ is_terminal terminal = true.
Proof.
  intros H. shape_leaves H; try destruct res; cbn.
  all: lazymatch goal with
       | |- exists evs terminal, ?q = _ /\ _ =>
           exists (removelast (omap id (removelast q)))
       end; cbn; eexists; split; reflexivity.
Qed.

Lemma run_calls_run_name rid cs : forall st,
  RunState.run_name (run_calls rid st cs) = RunState.run_name st.
Proof.
  induction cs as [|c cs IH]; intros st; [done|]. cbn. unfold run_calls in IH. by rewrite IH.
Qed.

Section Api.
Context (outputs_dir : string) (py_str_other : PyValue -> string)
        (utcnow_isoformat : string) (services : Services).

(** X13.  Once a run was submitted and its background task ran, one reader
    of its stream receives every published event, in order and ending with
    the terminal event, and the stream closes; the status handler answers
    for the run, with its name and a terminal status. *)
Theorem submitted_run_streams_to_the_end rid payload w :
  rid <> "" ->
  let w' := (trigger_and_run outputs_dir py_str_other utcnow_isoformat services
               rid payload w).1 in
  (trigger_and_run outputs_dir py_str_other utcnow_isoformat services rid payload w).2
  = inr rid
  /\ (exists st' yielded terminal,
        _runs w' !! rid = Some st'
        /\ RunState.queue st' = (Some <$> (yielded ++ [terminal])) ++ [None]
        /\ is_terminal terminal = true
        /\ (stream_pipeline_run rid w').2 = inr (yielded ++ [terminal], StreamClosed))
  /\ exists response,
      get_pipeline_run_status rid w' = (w', inr response)
      /\ PipelineRunStatusResponse.run_id response = rid
      /\ PipelineRunStatusResponse.run_name response = PipelineRunRequest.run_name payload
      /\ PipelineRunStatus.terminal (PipelineRunStatusResponse.status response) = true.
Proof.
  intros Hne.
  destruct (tracked_runs outputs_dir py_str_other utcnow_isoformat services rid payload Hne)
    as (steps & res & Hshape & _ & Hrun).
  set (st0 := created_state rid (PipelineRunRequest.run_name payload) payload).
  set (w1 := (RunStateManager.create_run rid (PipelineRunRequest.run_name payload)
                payload w).1).
  assert (Hst0 : _runs w1 !! rid = Some st0).
  { subst w1. rewrite create_run_world. apply lookup_insert_eq. }
  assert (Hall : trigger_and_run outputs_dir py_str_other utcnow_isoformat services
                   rid payload w
                 = (do_steps rid w1 (tracked_steps steps res), inr rid)).
  { unfold trigger_and_run, trigger_pipeline_run, bind. subst w1.
    rewrite create_run_world. cbn [fst ret].
    change (RunState.run_id (created_state rid (PipelineRunRequest.run_name payload) payload))
      with rid.
    by rewrite Hrun. }
  rewrite Hall. cbn [fst snd]. split; [done|].
  set (st' := run_calls rid st0 (registry_calls (tracked_steps steps res))).
  assert (Hst' : _runs (do_steps rid w1 (tracked_steps steps res)) !! rid = Some st')
    by by apply do_steps_runs.
  split.
  - destruct (tracked_events rid steps res Hshape) as (evs & terminal & Hev & Hterm).
    destruct (created_queue rid (PipelineRunRequest.run_name payload) payload)
      as (snaps0 & _ & Hq).
    exists st', (EvInit rid (PipelineRunRequest.run_name payload) snaps0 :: evs), terminal.
    assert (Hqueue : RunState.queue st'
              = (Some <$> ((EvInit rid (PipelineRunRequest.run_name payload) snaps0 :: evs)
                           ++ [terminal])) ++ [None]).
    { subst st'. rewrite run_calls_queue. fold st0 in Hq. by rewrite Hq, Hev. }
    split; [done|]. split; [done|]. split; [done|].
    rewrite (stream_known rid _ st' Hst'), Hqueue.
    change ((Some <$> ?l) ++ [None]) with ((Some <$> l) ++ None :: []).
    by rewrite event_generator_closed.
  - exists (status_response rid st'). split.
    { unfold get_pipeline_run_status, bind. by rewrite (get_status_known rid _ st' Hst'). }
    split; [done|]. split.
    { change (RunState.run_name st' = PipelineRunRequest.run_name payload).
      subst st'. by rewrite run_calls_run_name. }
    change (PipelineRunStatus.terminal (RunState.status st') = true).
    subst st'. rewrite registry_calls_tracked, run_calls_snoc. by destruct res.
Qed.
End Api.

(** ** Public paths *)

(** X14.  With an absolute output root, rewriting a path twice is rewriting
    it once: a rewritten path is relative and is left alone. *)
Theorem rewrite_asset_path_idempotent outputs_dir value :
  root (Path outputs_dir) <> "" ->
  _rewrite_asset_path outputs_dir (_rewrite_asset_path outputs_dir value)
  = _rewrite_asset_path outputs_dir value.
Proof.
  intros Habs.
  assert (Hcases : _rewrite_asset_path outputs_dir value = value
                   \/ exists relative,
                        _rewrite_asset_path outputs_dir value
                        = "outputs/" +:+ as_posix relative).
  { unfold _rewrite_asset_path, _public_asset_path.
    destruct (String.eqb value ""); [by left|].
    destruct (relative_to (Path value) (Path outputs_dir)) as [relative|]; [|by left].
    right. by exists relative. }
  destruct Hcases as [H|[relative ->]]; [by rewrite !H|].
  unfold _rewrite_asset_path, _public_asset_path, relative_to.
  cbn [String.eqb String.append Ascii.eqb Bool.eqb].
  rewrite decide_False; [done|].
  change ("" <> root (Path outputs_dir)). congruence.
Qed.

(** ** Asset selection *)

Lemma insert_scored_perm {A} (x : nat * A) l : insert_scored x l ≡ₚ x :: l.
Proof.
  induction l as [|y l IH]; cbn; [done|].
  destruct (decide (y.1 <= x.1)); [done|]. rewrite IH. apply Permutation_swap.
Qed.

Lemma sort_scored_perm {A} (l : list (nat * A)) : sort_scored l ≡ₚ l.
Proof.
  induction l as [|x l IH]; cbn; [done|]. by rewrite insert_scored_perm, IH.
Qed.

Lemma insert_scored_sorted {A} (x : nat * A) l :
  StronglySorted (fun a b => b.1 <= a.1) l ->
  StronglySorted (fun a b => b.1 <= a.1) (insert_scored x l).
Proof.
  induction 1 as [|y l Hl IH Hy]; cbn; [repeat constructor|].
  destruct (decide (y.1 <= x.1)) as [Hle|Hgt].
  - constructor; [by constructor|]. constructor; [done|].
    eapply Forall_impl; [exact Hy|]. cbn. intros; lia.
  - constructor; [done|]. rewrite insert_scored_perm. constructor; [lia|done].
Qed.

Lemma sort_scored_sorted {A} (l : list (nat * A)) :
  StronglySorted (fun a b => b.1 <= a.1) (sort_scored l).
Proof.
  induction l as [|x l IH]; cbn; [constructor|]. by apply insert_scored_sorted.
Qed.

Lemma StronglySorted_filter {A} (R : A -> A -> Prop) (P : A -> Prop)
    `{!forall x, Decision (P x)} l :
  StronglySorted R l -> StronglySorted R (filter P l).
Proof.
  induction 1 as [|x l Hl IH Hx]; [constructor|].
  rewrite filter_cons. destruct (decide (P x)); [|done].
  constructor; [done|]. rewrite Forall_forall in *. intros y [_ Hy]%list_elem_of_filter. by apply Hx.
Qed.

Lemma StronglySorted_take_drop {A} (R : A -> A -> Prop) n l a b :
  StronglySorted R l -> a ∈ take n l -> b ∈ drop n l -> R a b.
Proof.
  intros Hs. revert n. induction Hs as [|x l Hl IH Hx]; intros n Ha Hb.
  - rewrite take_nil in Ha. by apply elem_of_nil in Ha.
  - destruct n as [|n]; [by apply elem_of_nil in Ha|]. cbn in Ha, Hb.
    apply elem_of_cons in Ha as [->|Ha].
    + rewrite Forall_forall in Hx. apply Hx. by eapply (subseteq_drop n l).
    + by eapply IH.
Qed.

Lemma StronglySorted_take {A} (R : A -> A -> Prop) n l :
  StronglySorted R l -> StronglySorted R (take n l).
Proof.
  intros H. revert n. induction H as [|x l Hl IH Hx]; intros [|n]; cbn; try constructor.
  - apply IH.
  - rewrite Forall_forall in *. intros y Hy. apply Hx. by eapply (subseteq_take n l).
Qed.

Lemma filter_fmap_length {A B} (f : A -> B) (P : B -> Prop) `{!forall x, Decision (P x)}
    (l : list A) :
  length (filter P (f <$> l)) = length (filter (fun x => P (f x)) l).
Proof.
  induction l as [|x l IH]; [done|]. rewrite fmap_cons, !filter_cons.
  destruct (decide (P (f x))); cbn; by rewrite IH.
Qed.

Section SelectAssets.
Context (lower : string -> string).

Lemma ranked_items manifest requested item :
  item ∈ ranked_assets lower manifest requested ->
  item.1 = asset_score lower (lower <$> requested) item.2 /\ item.2 ∈ manifest.
Proof.
  unfold ranked_assets. rewrite sort_scored_perm. intros (a & -> & Ha)%list_elem_of_fmap. done.
Qed.

Lemma ranked_covers manifest requested a :
  a ∈ manifest ->
  (asset_score lower (lower <$> requested) a, a) ∈ ranked_assets lower manifest requested.
Proof.
  intros Ha. unfold ranked_assets. rewrite sort_scored_perm. apply list_elem_of_fmap. by exists a.
Qed.

(** The list [top] of [_select_assets], before the final slice: a part of
    the ranked manifest, in its order, that holds every matching asset. *)
Lemma select_assets_top manifest requested :
  lower <$> requested <> [] ->
  exists top,
    _select_assets lower manifest requested = snd <$> take 3 top
    /\ StronglySorted (fun a b => b.1 <= a.1) top
    /\ (forall item, item ∈ top -> item ∈ ranked_assets lower manifest requested)
    /\ (forall item, item ∈ ranked_assets lower manifest requested -> 0 < item.1 -> item ∈ top)
    /\ (2 <= length (filter (fun a => 0 < asset_score lower (lower <$> requested) a)
                            manifest) ->
        forall item, item ∈ top -> 0 < item.1)
    /\ (length (filter (fun a => 0 < asset_score lower (lower <$> requested) a) manifest) < 2 ->
        length top = length manifest).
Proof.
  intros Hkw. unfold _select_assets. rewrite decide_False by done. cbn zeta.
  fold (ranked_assets lower manifest requested).
  assert (Hlen : length (filter (fun item => 0 < item.1) (ranked_assets lower manifest requested))
                 = length (filter (fun a => 0 < asset_score lower (lower <$> requested) a)
                                  manifest)).
  { unfold ranked_assets. rewrite sort_scored_perm. by rewrite filter_fmap_length. }
  rewrite !length_fmap. destruct (decide (_ < 2)) as [Hfew|Hmany].
  - exists (ranked_assets lower manifest requested). rewrite fmap_take.
    split; [done|]. split; [apply sort_scored_sorted|]. split; [done|]. split; [done|].
    split; [lia|]. intros _. unfold ranked_assets. by rewrite sort_scored_perm, length_fmap.
  - exists (filter (fun item => 0 < item.1) (ranked_assets lower manifest requested)). rewrite fmap_take.
    split; [done|]. split; [apply StronglySorted_filter, sort_scored_sorted|].
    split; [by intros item [_ ?]%list_elem_of_filter|].
    split; [intros item ? ?; by apply list_elem_of_filter|].
    split; [by intros _ item [? _]%list_elem_of_filter|]. lia.
Qed.

(** X15.  [_select_assets] returns at most three assets, all of them from
    the manifest; with no keyword requested it returns the first three of
    the manifest as they stand. *)
Theorem select_assets_bounded manifest requested :
  length (_select_assets lower manifest requested) <= 3
  /\ (forall a, a ∈ _select_assets lower manifest requested -> a ∈ manifest)
  /\ (requested = [] -> _select_assets lower manifest requested = take 3 manifest).
Proof.
  destruct (decide (lower <$> requested = [])) as [Hnone|Hkw].
  - assert (Hres : _select_assets lower manifest requested = take 3 manifest).
    { unfold _select_assets. by rewrite decide_True. }
    rewrite Hres. split; [rewrite length_take; lia|]. split; [|done].
    intros a Ha. by eapply (subseteq_take 3 manifest).
  - destruct (select_assets_top manifest requested Hkw) as (top & -> & _ & Hin & _).
    split; [rewrite length_fmap, length_take; lia|]. split.
    + intros a (item & -> & Hitem)%list_elem_of_fmap.
      apply (subseteq_take 3 top), Hin, ranked_items in Hitem. tauto.
    + intros ->. done.
Qed.

(** X16.  With keywords requested, the assets are returned best first, and
    no asset of the manifest that was left out scores more than one that
    was returned. *)
Theorem select_assets_best_first manifest requested :
  requested <> [] ->
  let score := asset_score lower (lower <$> requested) in
  let selected := _select_assets lower manifest requested in
  StronglySorted (fun a b => score b <= score a) selected
  /\ forall a b, a ∈ manifest -> a ∉ selected -> b ∈ selected -> score a <= score b.
Proof.
  intros Hreq score selected.
  assert (Hkw : lower <$> requested <> []) by by destruct requested.
  destruct (select_assets_top manifest requested Hkw)
    as (top & Hsel & Hsorted & Hin & Hmatch & _).
  subst selected. rewrite Hsel. clear Hsel.
  assert (Hscore : forall item, item ∈ top -> item.1 = score item.2).
  { intros item Hitem. by apply Hin, ranked_items in Hitem as [? _]. }
  split.
  - assert (Htake : forall item, item ∈ take 3 top -> item.1 = score item.2).
    { intros item Hitem. by apply Hscore, (subseteq_take 3 top). }
    pose proof (StronglySorted_take _ 3 top Hsorted) as Hs.
    induction Hs as [|x l Hl IH Hx]; [constructor|]. cbn. constructor.
    + apply IH. intros item Hitem. apply Htake. by right.
    + apply Forall_forall. intros b (y & -> & Hy)%list_elem_of_fmap.
      rewrite Forall_forall in Hx.
      rewrite <- (Htake x), <- (Htake y); [by apply Hx|by right|by left].
  - intros a b Ha Hnot (y & -> & Hy)%list_elem_of_fmap.
    destruct (decide (0 < score a)) as [Hpos|Hzero]; [|lia].
    assert (Hatop : (score a, a) ∈ top) by (apply Hmatch; [by apply ranked_covers|done]).
    rewrite <- (take_drop 3 top) in Hatop. apply elem_of_app in Hatop as [Hatop|Hatop].
    { exfalso. apply Hnot. apply list_elem_of_fmap. by exists (score a, a). }
    rewrite <- (Hscore y) by by apply (subseteq_take 3 top).
    apply (StronglySorted_take_drop _ 3 top y (score a, a) Hsorted Hy Hatop).
Qed.

(** X17.  With keywords requested and at least two assets of the manifest
    matching one, only matching assets are returned; with fewer than two
    matching, the selection falls back to the whole manifest and returns
    three assets, or all of them when the manifest holds fewer. *)
Theorem select_assets_matching_or_fallback manifest requested :
  requested <> [] ->
  let score := asset_score lower (lower <$> requested) in
  let selected := _select_assets lower manifest requested in
  let matching := filter (fun a => 0 < score a) manifest in
  (2 <= length matching -> forall a, a ∈ selected -> 0 < score a)
  /\ (length matching < 2 -> length selected = Nat.min 3 (length manifest)).
Proof.
  intros Hreq score selected matching.
  assert (Hkw : lower <$> requested <> []) by by destruct requested.
  destruct (select_assets_top manifest requested Hkw)
    as (top & Hsel & _ & Hin & _ & Hmany & Hfew).
  subst selected. rewrite Hsel. split.
  - intros H2 a (item & -> & Hitem)%list_elem_of_fmap.
    apply (subseteq_take 3 top) in Hitem.
    pose proof (Hmany H2 item Hitem) as Hpos.
    apply Hin, ranked_items in Hitem as [Heq _]. subst score. cbn beta. by rewrite <- Heq.
  - intros H1. by rewrite length_fmap, length_take, (Hfew H1).
Qed.
End SelectAssets.

(** ** Status transitions of the registry *)

(** X18.  The three status operations do not look at the status they
    replace.  On a known run, [mark_run_started] sets [running],
    [mark_run_failed] sets [error] and [mark_run_completed] sets
    [completed], whatever the status was; only [mark_run_completed]
    changes the outputs, taking those of the response; none of them
    changes a stage snapshot, the stage list of the response included. *)
Theorem status_operations_frame rid w st response message :
  _runs w !! rid = Some st ->
  (exists st',
      _runs (RunStateManager.mark_run_started rid w).1 !! rid = Some st'
      /\ RunState.status st' = PipelineRunStatus.running
      /\ RunState.outputs st' = RunState.outputs st
      /\ RunState.stages st' = RunState.stages st
      /\ RunState.queue st' = RunState.queue st ++ [Some (EvRun rid "running")])
  /\ (exists st',
        _runs (RunStateManager.mark_run_failed rid message w).1 !! rid = Some st'
        /\ RunState.status st' = PipelineRunStatus.error
        /\ RunState.outputs st' = RunState.outputs st
        /\ RunState.stages st' = RunState.stages st
        /\ RunState.queue st'
           = RunState.queue st
             ++ [Some (EvRun rid "error"); Some (EvError rid message); None])
  /\ (exists st',
        _runs (RunStateManager.mark_run_completed rid response w).1 !! rid = Some st'
        /\ RunState.status st' = PipelineRunStatus.completed
        /\ RunState.outputs st' = PipelineRunResponse.outputs response
        /\ RunState.stages st' = RunState.stages st
        /\ RunState.queue st'
           = RunState.queue st
             ++ [Some (EvRun rid "completed"); Some (EvComplete rid response); None]).
Proof.
  intros H.
  assert (Hc : forall c, _runs (perform rid c w).1 !! rid = Some (effect rid c st)).
  { intros c. rewrite perform_step. by apply (do_step_runs rid w (Reg c) st). }
  split; [|split].
  - exists (effect rid MarkRunStarted st). split; [apply (Hc MarkRunStarted)|done].
  - exists (effect rid (MarkRunFailed message) st).
    split; [apply (Hc (MarkRunFailed message))|done].
  - exists (effect rid (MarkRunCompleted response) st).
    split; [apply (Hc (MarkRunCompleted response))|done].
Qed.

(** ** Failures after the executor returned *)

Section Summary.
Context (outputs_dir : string) (py_str_other : PyValue -> string).

(** X19.  The [try] of [_run_stage] also covers the summary of the result.
    When the executor returned but the detail builder, the sanitization or
    the validation of the payload raises [exc], the stage is recorded as
    [error] with the text of [exc], [RuntimeError("Stage <stage> failed")]
    is raised from [exc], and the log still shows that the executor
    returned. *)
Theorem stage_fails_when_summary_fails rid stage snapshots executor detail_builder
    result exc w st :
  rid <> "" -> _runs w !! rid = Some st ->
  executor = inr result ->
  detail_builder result = inl exc
  \/ (exists detail,
        detail_builder result = inr detail
        /\ rbind (_sanitize_payload outputs_dir py_str_other result) validate_payload
           = inl exc) ->
  let r := _run_stage outputs_dir py_str_other stage snapshots executor detail_builder
             (Some rid) w in
  r.2 = inl (Exc "RuntimeError" ("Stage " +:+ PipelineStage.value stage +:+ " failed")
               (Some exc))
  /\ executed r.1 = executed w ++ [(stage, inr result)]
  /\ exists st',
      _runs r.1 !! rid = Some st'
      /\ RunState.stages st' !! stage
         = Some (PipelineStageSnapshot.mk stage "error" (Some (exc_str exc)) None)
      /\ RunState.status st' = RunState.status st.
Proof.
  intros Hne Hst -> Hfail r.
  assert (Hrun : runs_as rid
            (_run_stage outputs_dir py_str_other stage snapshots (inr result)
               detail_builder (Some rid))
            (failed_steps stage (inr result) exc) (inl (stage_failed stage exc))).
  { unfold _run_stage.
    assert (Hupd : forall status d p,
      runs_as rid (if_run_id (Some rid) (fun rid0 =>
        RunStateManager.update_stage rid0 stage status d p))
        [Reg (UpdateStage stage status d p)] (inr tt)).
    { intros. by apply runs_as_if_run_id. }
    eapply (runs_as_bind_ok _ _ _ [_] tt); [apply Hupd|].
    eapply (runs_as_try_err _ _ _ [_] exc).
    - eapply (runs_as_bind_ok _ _ _ [_] result []); [apply runs_as_to_thread|].
      destruct Hfail as [Hd|(detail & Hd & Hp)].
      + apply runs_as_bind_err. rewrite Hd. apply runs_as_lift.
      + eapply (runs_as_bind_ok _ _ _ [] detail []); [rewrite Hd; apply runs_as_lift|].
        apply runs_as_bind_err. rewrite Hp. apply runs_as_lift.
    - eapply (runs_as_bind_ok _ _ _ [_] tt []); [apply Hupd|]. by intros w0. }
  assert (Hr : r = (do_steps rid w (failed_steps stage (inr result) exc),
                    inl (stage_failed stage exc))) by apply Hrun.
  clearbody r. subst r. cbn [fst snd]. split; [done|].
  split; [by rewrite do_steps_executed|].
  eexists. split; [by apply do_steps_runs|]. cbn. by rewrite lookup_insert_eq.
Qed.
End Summary.

(** ** Instances on the sample inputs *)

Lemma tracked_run_leaves_other_runs_witness :
  _runs (execute_with_tracking sample_outputs_dir sample_str_other "2025-01-01T00:00:00"
           working_services "r1" sample_request (fresh_world two_runs)).1 !! "r2"
  = _runs (fresh_world two_runs) !! "r2".
Proof.
  apply (tracked_run_leaves_other_runs sample_outputs_dir sample_str_other
           "2025-01-01T00:00:00" working_services "r1" "r2").
  discriminate.
Defined.

Lemma returned_response_is_complete_witness :
  PipelineRunResponse.run_name sample_response = "demo"
  /\ PipelineStageSnapshot.stage <$> PipelineRunResponse.stages sample_response
     = PIPELINE_STAGE_ORDER.
Proof.
  destruct (returned_response_is_complete sample_outputs_dir sample_str_other
              "2025-01-01T00:00:00" working_services sample_request None (fresh_world ∅)
              (run sample_outputs_dir sample_str_other "2025-01-01T00:00:00"
                 working_services sample_request (fresh_world ∅)).1
              sample_response)
    as (H1 & H2 & _).
  - vm_compute. reflexivity.
  - split; assumption.
Defined.

Lemma tracked_run_ends_as_execute_ended_witness :
  (execute_with_tracking sample_outputs_dir sample_str_other "2025-01-01T00:00:00"
     failing_editing_services "r1" sample_request (fresh_world sample_runs)).2
  = inr tt.
Proof.
  apply (tracked_run_ends_as_execute_ended sample_outputs_dir sample_str_other
           "2025-01-01T00:00:00" failing_editing_services "r1" sample_request
           (fresh_world sample_runs) (created_state "r1" "demo" sample_request)).
  - discriminate.
  - reflexivity.
Defined.

Lemma final_stage_statuses_witness :
  exists st',
    _runs (sample_run_world failing_editing_services) !! "r1" = Some st'
    /\ let statuses := PipelineStageSnapshot.status <$> RunState.stage_snapshots st' in
       statuses = replicate 7 "done"
       \/ exists n,
           n < 6
           /\ statuses = replicate n "done" ++ ["error"] ++ replicate (6 - n) "queued"
           /\ RunState.status st' = PipelineRunStatus.error.
Proof.
  apply (final_stage_statuses sample_outputs_dir sample_str_other "2025-01-01T00:00:00"
           failing_editing_services "r1" "demo" sample_request ∅).
  discriminate.
Defined.

Lemma channel_replay_gives_state_witness :
  let st := effect "r1" MarkRunStarted (created_state "r1" "demo" sample_request) in
  replay_stages (RunState.queue st) = RunState.stages st
  /\ replay_status (RunState.queue st) = PipelineRunStatus.value (RunState.status st)
  /\ replay_outputs (RunState.queue st) = RunState.outputs st.
Proof.
  apply (channel_replay_gives_state
           [CreateRun "r1" "demo" sample_request; OnRun "r1" MarkRunStarted] "r1").
  reflexivity.
Defined.

Lemma tracked_run_of_unknown_id_witness :
  let r := execute_with_tracking sample_outputs_dir sample_str_other
             "2025-01-01T00:00:00" working_services "nope" sample_request
             (fresh_world sample_runs) in
  r.2 = inr tt /\ _runs r.1 = sample_runs /\ history r.1 = []
  /\ executed r.1
     = executed (run sample_outputs_dir sample_str_other "2025-01-01T00:00:00"
                   working_services sample_request (fresh_world sample_runs)).1
  /\ exists calls,
      executed r.1
      = [] ++ (PipelineStage.ingest, ok (VDict ingest_payload)) :: calls.
Proof.
  apply (tracked_run_of_unknown_id sample_outputs_dir sample_str_other
           "2025-01-01T00:00:00" working_services "nope" sample_request
           sample_response "boom" (fresh_world sample_runs)).
  reflexivity.
Defined.

Lemma second_reader_receives_nothing_witness :
  exists w',
    (first <- stream_pipeline_run "r1" ;;
     second <- stream_pipeline_run "r1" ;;
     ret (first, second)) (fresh_world {[ "r1" := closed_run ]})
    = (w', inr ((omap id (RunState.queue closed_run), StreamClosed), ([], StreamWaiting)))
    /\ RunStateManager.get_queue "r1" w' = (w', inr (Some [])).
Proof.
  apply (second_reader_receives_nothing "r1" (fresh_world {[ "r1" := closed_run ]})
           closed_run (omap id (RunState.queue closed_run))).
  - reflexivity.
  - reflexivity.
Defined.

Lemma submitted_run_streams_to_the_end_witness :
  (trigger_and_run sample_outputs_dir sample_str_other "2025-01-01T00:00:00"
     working_services "r1" sample_request (fresh_world ∅)).2
  = inr "r1".
Proof.
  apply (submitted_run_streams_to_the_end sample_outputs_dir sample_str_other
           "2025-01-01T00:00:00" working_services "r1" sample_request (fresh_world ∅)).
  discriminate.
Defined.

Lemma rewrite_asset_path_idempotent_witness :
  _rewrite_asset_path sample_outputs_dir
    (_rewrite_asset_path sample_outputs_dir "/srv/app/outputs/demo/instagram.mp4")
  = _rewrite_asset_path sample_outputs_dir "/srv/app/outputs/demo/instagram.mp4".
Proof.
  apply (rewrite_asset_path_idempotent sample_outputs_dir).
  vm_compute. discriminate.
Defined.

Lemma select_assets_best_first_witness :
  let score := asset_score keep_case (keep_case <$> ["stem"; "family"]) in
  let selected := _select_assets keep_case sample_manifest ["stem"; "family"] in
  StronglySorted (fun a b => score b <= score a) selected
  /\ forall a b, a ∈ sample_manifest -> a ∉ selected -> b ∈ selected -> score a <= score b.
Proof.
  apply (select_assets_best_first keep_case sample_manifest ["stem"; "family"]).
  discriminate.
Defined.

Lemma select_assets_matching_or_fallback_witness :
  let score := asset_score keep_case (keep_case <$> ["stem"; "family"]) in
  let selected := _select_assets keep_case sample_manifest ["stem"; "family"] in
  let matching := filter (fun a => 0 < score a) sample_manifest in
  (2 <= length matching -> forall a, a ∈ selected -> 0 < score a)
  /\ (length matching < 2 -> length selected = Nat.min 3 (length sample_manifest)).
Proof.
  apply (select_assets_matching_or_fallback keep_case sample_manifest ["stem"; "family"]).
  discriminate.
Defined.

Lemma status_operations_frame_witness :
  exists st',
    _runs (RunStateManager.mark_run_started "r1" (fresh_world {[ "r1" := closed_run ]})).1
      !! "r1" = Some st'
    /\ RunState.status st' = PipelineRunStatus.running.
Proof.
  destruct (status_operations_frame "r1" (fresh_world {[ "r1" := closed_run ]}) closed_run
              sample_response "boom") as ((st' & H1 & H2 & _) & _).
  - reflexivity.
  - exists st'. split; assumption.
Defined.

Lemma stage_fails_when_summary_fails_witness :
  (_run_stage sample_outputs_dir sample_str_other PipelineStage.ingest []
     (inr (VDict [("assets", VNone)])) _format_ingest_detail (Some "r1")
     (fresh_world sample_runs)).2
  = inl (Exc "RuntimeError" "Stage ingest failed"
           (Some (Exc "TypeError" "object has no len()" None))).
Proof.
  apply (stage_fails_when_summary_fails sample_outputs_dir sample_str_other "r1"
           PipelineStage.ingest [] (inr (VDict [("assets", VNone)])) _format_ingest_detail
           (VDict [("assets", VNone)]) (Exc "TypeError" "object has no len()" None)
           (fresh_world sample_runs) (created_state "r1" "demo" sample_request)).
  - discriminate.
  - reflexivity.
  - reflexivity.
  - left. reflexivity.
Defined.
